(** * Token lifecycle and revocation of the authentication service

    A shallow embedding of the session routes (routes/auth.js), the access
    guard (middleware/auth.js) and the cleanup sweeper (utils/tokenCleanup.js).

    The MongoDB collection of users is a list of documents in natural order;
    every operation takes the collection and returns what it answers together
    with the collection it leaves behind.  The clock, the jsonwebtoken codec
    and bcrypt are inputs of the model. *)

From Stdlib Require Import List String ZArith NArith Bool Lia DecimalString.
Import ListNotations.

Local Open Scope string_scope.
Local Open Scope list_scope.

(** ** Data model *)

Definition ObjectId := N.
Bind Scope N_scope with ObjectId.

(** One element of [refreshTokens]: the signed token string and its creation
    time in milliseconds since the epoch. *)
Record RefreshTokenRecord := mkRefreshTokenRecord {
  token : string;
  createdAt : Z
}.

(** A user document as it is persisted; [password] is the stored hash. *)
Record User := mkUser {
  _id : ObjectId;
  name : string;
  email : string;
  password : string;
  role : string;
  refreshTokens : list RefreshTokenRecord
}.

(** A user document as it leaves the store layer: a field that was excluded
    by a projection, or dropped by serialisation, is [None]. *)
Record UserView := mkUserView {
  view_id : ObjectId;
  view_name : string;
  view_email : string;
  view_role : string;
  view_password : option string;
  view_refreshTokens : option (list RefreshTokenRecord)
}.

Definition DB := list User.

(** What [jwt.verify] does: it returns the decoded payload, of which the
    callers read [decoded.id] only, or throws an error that the callers tell
    apart by [error.name]. *)
Inductive jwt_result :=
| Decoded (id : ObjectId)
| Throws (error_name : string).

Definition verifies (r : jwt_result) : bool :=
  match r with Decoded _ => true | Throws _ => false end.

(** The [data] member of a JSON response. *)
Inductive ResponseData :=
| SessionData (user : UserView) (accessToken refreshToken : string)
| AccessTokenData (accessToken : string).

Record Response := mkResponse {
  status : nat;
  success : bool;
  message : option string;
  data : option ResponseData
}.

(** [res.status(c).json({ success: false, message: m })] *)
Definition failure (c : nat) (m : string) : Response :=
  mkResponse c false (Some m) None.

Definition invalid_refresh_token : Response :=
  failure 401 "Invalid refresh token".

(** JavaScript truthiness of a request field that is absent or a string. *)
Definition truthy (field : option string) : bool :=
  match field with
  | None => false
  | Some s => negb (s =? "")
  end.

(** ** The store *)

Definition set_refreshTokens (u : User) (l : list RefreshTokenRecord) : User :=
  mkUser (_id u) (name u) (email u) (password u) (role u) l.

(** [User.findById(id)] *)
Definition findById (db : DB) (id : ObjectId) : option User :=
  find (fun u => N.eqb (_id u) id) db.

(** [User.findOne({ email })] *)
Definition findOne_email (db : DB) (e : string) : option User :=
  find (fun u => email u =? e) db.

(** [doc.refreshTokens = l; await doc.save()] on a document that was loaded
    from the collection: only the modified path is written back, to the
    document with that [_id]. *)
Definition save_refreshTokens (db : DB) (id : ObjectId)
    (l : list RefreshTokenRecord) : DB :=
  map (fun u => if N.eqb (_id u) id then set_refreshTokens u l else u) db.

(** The identifier the driver gives to a new document; it is new to the
    collection. *)
Definition new_id (db : DB) : ObjectId :=
  N.succ (fold_right N.max 0%N (map _id db)).

(** [.select("-password -refreshTokens")] *)
Definition select_profile (u : User) : UserView :=
  mkUserView (_id u) (name u) (email u) (role u) None None.

(** The record list of user [id], empty when there is no such user. *)
Definition tokens_of (db : DB) (id : ObjectId) : list RefreshTokenRecord :=
  match findById db id with
  | Some u => refreshTokens u
  | None => []
  end.

Definition msPerDay : Z := 86400000.

(** [TimeClip] of ECMAScript: a time value beyond 8.64e15 milliseconds from
    the epoch is no date ([NaN], here [None]). *)
Definition maxTime : Z := 8640000000000000.

Definition TimeClip (t : Z) : option Z :=
  if (Z.abs t <=? maxTime)%Z then Some t else None.

(** [s.length]: the number of UTF-16 code units of the text whose UTF-8
    bytes the string holds.  An ASCII byte and the lead byte of a two- or
    three-byte sequence stand for one unit, the lead byte of a four-byte
    sequence for the two units of a surrogate pair, a continuation byte for
    none. *)
Fixpoint utf16_length (s : string) : nat :=
  match s with
  | EmptyString => 0
  | String c rest =>
      let b := Ascii.nat_of_ascii c in
      ((if b <? 128 then 1 else if b <? 192 then 0 else if b <? 240 then 1
        else 2) + utf16_length rest)%nat
  end.

Section Service.

(** utils/jwt.js: [jwt.sign] and [jwt.verify] under the access and the refresh
    secret, at the time given as first argument. *)
Variable generateAccessToken : Z -> ObjectId -> string -> string -> string.
Variable generateRefreshToken : Z -> ObjectId -> string.
Variable verifyAccessToken : Z -> string -> jwt_result.
Variable verifyRefreshToken : Z -> string -> jwt_result.

(** The User model (models/User.js): its schema validators, run by [save()]
    on a new document, its pre-save password hashing and its [comparePassword]
    method are inputs. *)
Variable validates : User -> bool.
Variable hashPassword : string -> string.
Variable comparePassword : User -> string -> bool.

(** [LocalTZA(t, isUTC)] of ECMAScript: the offset of the server's time zone
    from UTC, in milliseconds, at the time value [t], which is a UTC time
    when [isUTC] and a local time otherwise. *)
Variable LocalTZA : Z -> bool -> Z.

(** ** Cleanup sweeper (utils/tokenCleanup.js) *)

(** Whether [verifyRefreshToken(tokenObj.token)] returns rather than throws. *)
Definition still_verifies (now : Z) (r : RefreshTokenRecord) : bool :=
  verifies (verifyRefreshToken now (token r)).

(** One turn of the [for ... of user.refreshTokens] loop: the accumulator is
    [(validTokens, expiredCount)]. *)
Definition sweep_step (now : Z) (acc : list RefreshTokenRecord * nat)
    (tokenObj : RefreshTokenRecord) : list RefreshTokenRecord * nat :=
  match verifyRefreshToken now (token tokenObj) with
  | Decoded _ => (fst acc ++ [tokenObj], snd acc)
  | Throws _ => (fst acc, S (snd acc))
  end.

Definition sweep (now : Z) (l : list RefreshTokenRecord)
    : list RefreshTokenRecord * nat :=
  fold_left (sweep_step now) l ([], 0).

(** [cleanupUserRefreshTokens(userId)]: the count it returns and the
    collection afterwards. *)
Definition cleanupUserRefreshTokens (db : DB) (now : Z) (userId : ObjectId)
    : nat * DB :=
  match findById db userId with
  | None => (0, db)
  | Some user =>
      let (validTokens, expiredCount) := sweep now (refreshTokens user) in
      if (0 <? expiredCount)%nat
      then (expiredCount, save_refreshTokens db userId validTokens)
      else (expiredCount, db)
  end.

Definition LocalTime (t : Z) : Z := (t + LocalTZA t true)%Z.

Definition UTC (t : Z) : Z := (t - LocalTZA t false)%Z.

(** [cutoffDate.setDate(cutoffDate.getDate() - olderThanDays)] on
    [new Date()]: the day of the month is moved in local time, which takes
    [olderThanDays] days of twenty-four hours off the local time value; the
    result goes back to UTC and through [TimeClip]. *)
Definition cutoffDate (now olderThanDays : Z) : option Z :=
  TimeClip (UTC (LocalTime now - olderThanDays * msPerDay)).

Definition older_than (cutoff : Z) (r : RefreshTokenRecord) : bool :=
  (createdAt r <? cutoff)%Z.

(** [cleanupOldTokens(olderThanDays = 30)].  [cutoffDate.toISOString()]
    throws on a cutoff that is no date, and the [catch] returns 0.
    Otherwise an [updateMany] whose filter is "some record was created
    before the cutoff" pulls every such record; the function returns
    [modifiedCount]. *)
Definition cleanupOldTokens (db : DB) (now : Z) (olderThanDays : option Z)
    : nat * DB :=
  let days := match olderThanDays with Some d => d | None => 30%Z end in
  match cutoffDate now days with
  | None => (0, db)
  | Some cutoff =>
      let matched := fun u => existsb (older_than cutoff) (refreshTokens u) in
      (List.length (filter matched db),
       map (fun u =>
              if matched u
              then set_refreshTokens u
                     (filter (fun r => negb (older_than cutoff r))
                        (refreshTokens u))
              else u) db)
  end.

(** [autoCleanupMiddleware]: the sweep of the caller's record list that the
    guard dispatches without awaiting it.  The model is sequential: the sweep
    has run when the next handler starts. *)
Definition autoCleanupMiddleware (db : DB) (now : Z) (req_user : UserView)
    : DB :=
  snd (cleanupUserRefreshTokens db now (view_id req_user)).

(** ** Access guard (middleware/auth.js) *)

Inductive guard_result :=
| Denied (res : Response)
| Granted (req_user : UserView).

(** The bearer token of the [Authorization] header: none when the header is
    missing, empty, or does not start with ["Bearer "]; otherwise
    [authHeader.substring(7)]. *)
Definition bearer (authHeader : option string) : option string :=
  match authHeader with
  | None => None
  | Some h =>
      if (h =? "") || negb (prefix "Bearer " h) then None
      else Some (substring 7 (String.length h - 7) h)
  end.

Definition auth (db : DB) (now : Z) (authHeader : option string)
    : guard_result :=
  match bearer authHeader with
  | None => Denied (failure 401 "Access denied. No token provided.")
  | Some tok =>
      match verifyAccessToken now tok with
      | Decoded id =>
          match findById db id with
          | None => Denied (failure 401 "Invalid token. User not found.")
          | Some user => Granted (select_profile user)
          end
      | Throws error_name =>
          if error_name =? "JsonWebTokenError"
          then Denied (failure 401 "Invalid token.")
          else if error_name =? "TokenExpiredError"
          then Denied (failure 401 "Token expired.")
          else Denied (failure 500 "Internal server error.")
      end
  end.

(** [adminAuth]: the response it sends, or [None] when it calls [next()]. *)
Definition adminAuth (req_user : UserView) : option Response :=
  if negb (view_role req_user =? "admin")
  then Some (failure 403 "Access denied. Admin role required.")
  else None.

(** A route declared as [router.post(path, auth, handler)]. *)
Definition guarded (db : DB) (now : Z) (authHeader : option string)
    (handler : DB -> UserView -> Response * DB) : Response * DB :=
  match auth db now authHeader with
  | Denied res => (res, db)
  | Granted req_user => handler (autoCleanupMiddleware db now req_user) req_user
  end.

(** ** User model methods the routes call *)

(** Modelled from the spec: [addRefreshToken] of models/User.js is missing;
    "append a new RefreshTokenRecord to the user".  It returns the document
    in memory and the collection after the save. *)
Definition addRefreshToken (db : DB) (now : Z) (user : User) (tok : string)
    : User * DB :=
  let l := refreshTokens user ++ [mkRefreshTokenRecord tok now] in
  (set_refreshTokens user l, save_refreshTokens db (_id user) l).

(** Modelled from the spec: [removeRefreshToken] of models/User.js is missing;
    "remove exactly the matching RefreshTokenRecord from the caller's own
    record list; idempotent if already absent".  Every record that holds the
    token string is matching. *)
Definition removeRefreshToken (db : DB) (id : ObjectId) (tok : string) : DB :=
  save_refreshTokens db id
    (filter (fun r => negb (token r =? tok)) (tokens_of db id)).

(** Modelled from the spec: the serialisation of a user document by
    [res.json], defined in models/User.js, is missing; "user profile (sans
    secrets)": the password hash and the record list are left out. *)
Definition toJSON (u : User) : UserView :=
  mkUserView (_id u) (name u) (email u) (role u) None None.

(** ** Session manager (routes/auth.js)

    The audit calls ([logActivity]) swallow their own failures and write to
    another collection; they are left out. *)

Record RegisterBody := mkRegisterBody {
  reg_name : option string;
  reg_email : option string;
  reg_password : option string;
  reg_role : option string
}.

Record LoginBody := mkLoginBody {
  login_email : option string;
  login_password : option string
}.

(** The string of a field that was checked to be truthy. *)
Definition text (field : option string) : string :=
  match field with Some s => s | None => "" end.

Definition is_admin_literal (field : option string) : bool :=
  match field with Some s => s =? "admin" | None => false end.

Definition internal_error : Response := failure 500 "Internal server error".

(** [POST /auth/register].  [jwt.sign] and the two saves are taken not to
    throw: of the failures that the [catch] turns into a 500, the model has
    the rejection of the new document by the schema validators. *)
Definition register (db : DB) (now : Z) (body : RegisterBody)
    : Response * DB :=
  if negb (truthy (reg_name body)) || negb (truthy (reg_email body))
     || negb (truthy (reg_password body))
  then (failure 400 "Please provide name, email, and password", db)
  else if (utf16_length (text (reg_password body)) <? 6)%nat
  then (failure 400 "Password must be at least 6 characters long", db)
  else
    match findOne_email db (text (reg_email body)) with
    | Some _ => (failure 400 "User already exists with this email", db)
    | None =>
        let user :=
          mkUser (new_id db) (text (reg_name body)) (text (reg_email body))
                 (text (reg_password body))
                 (if is_admin_literal (reg_role body) then "admin" else "user")
                 [] in
        if negb (validates user) then (internal_error, db)
        else
          let user := mkUser (_id user) (name user) (email user)
                             (hashPassword (password user)) (role user)
                             (refreshTokens user) in
          let db := db ++ [user] in
          let accessToken :=
            generateAccessToken now (_id user) (email user) (role user) in
          let refreshToken := generateRefreshToken now (_id user) in
          let (user, db) := addRefreshToken db now user refreshToken in
          (mkResponse 201 true (Some "User registered successfully")
             (Some (SessionData (toJSON user) accessToken refreshToken)),
           db)
    end.

(** [POST /auth/login] *)
Definition login (db : DB) (now : Z) (body : LoginBody) : Response * DB :=
  if negb (truthy (login_email body)) || negb (truthy (login_password body))
  then (failure 400 "Please provide email and password", db)
  else
    match findOne_email db (text (login_email body)) with
    | None => (failure 401 "Invalid credentials", db)
    | Some user =>
        if negb (comparePassword user (text (login_password body)))
        then (failure 401 "Invalid credentials", db)
        else
          let accessToken :=
            generateAccessToken now (_id user) (email user) (role user) in
          let refreshToken := generateRefreshToken now (_id user) in
          let (user, db) := addRefreshToken db now user refreshToken in
          (mkResponse 200 true (Some "Login successful")
             (Some (SessionData (toJSON user) accessToken refreshToken)),
           db)
    end.

(** [POST /auth/refresh] *)
Definition refresh (db : DB) (now : Z) (refreshToken : option string)
    : Response * DB :=
  if negb (truthy refreshToken)
  then (failure 401 "Refresh token required", db)
  else
    let tok := text refreshToken in
    match verifyRefreshToken now tok with
    | Decoded id =>
        match findById db id with
        | None => (failure 401 "Invalid refresh token", db)
        | Some user =>
            let tokenExists :=
              existsb (fun t => token t =? tok) (refreshTokens user) in
            if negb tokenExists
            then (failure 401 "Invalid refresh token", db)
            else
              let newAccessToken :=
                generateAccessToken now (_id user) (email user) (role user) in
              (mkResponse 200 true None (Some (AccessTokenData newAccessToken)),
               db)
        end
    | Throws error_name =>
        if (error_name =? "JsonWebTokenError")
           || (error_name =? "TokenExpiredError")
        then (failure 401 "Invalid refresh token", db)
        else (internal_error, db)
    end.

(** The handler of [POST /auth/logout], behind the guard. *)
Definition logout (refreshToken : option string) (db : DB)
    (req_user : UserView) : Response * DB :=
  if truthy refreshToken
  then (mkResponse 200 true (Some "Logout successful") None,
        removeRefreshToken db (view_id req_user) (text refreshToken))
  else (mkResponse 200 true (Some "Logged out from all devices") None,
        save_refreshTokens db (view_id req_user) []).

(** The handler of [POST /auth/logout-all], behind the guard. *)
Definition logout_all (db : DB) (req_user : UserView) : Response * DB :=
  (mkResponse 200 true (Some "Logged out from all devices") None,
   save_refreshTokens db (view_id req_user) []).

(** A refresh token of user [id] as the codec sees it at [now]: it verifies
    and its claims name [id], or it has stopped verifying (past its lifetime,
    or rejected as malformed). *)
Definition issued_to (now : Z) (tok : string) (id : ObjectId) : Prop :=
  match verifyRefreshToken now tok with
  | Decoded claimed => claimed = id
  | Throws error_name =>
      error_name = "TokenExpiredError" \/ error_name = "JsonWebTokenError"
  end.

Definition post_logout (db : DB) (now : Z) (authHeader : option string)
    (refreshToken : option string) : Response * DB :=
  guarded db now authHeader (logout refreshToken).

Definition post_logout_all (db : DB) (now : Z) (authHeader : option string)
    : Response * DB :=
  guarded db now authHeader logout_all.

End Service.

(** ** A small instance, for running the model on concrete requests *)

Module Demo.

(** Two users; alice holds an expired and a live refresh token. *)
Definition alice : User :=
  mkUser 1%N "Alice" "a@x.com" "hash:secret1" "user"
    [mkRefreshTokenRecord "rt.1.old" 100%Z; mkRefreshTokenRecord "rt.1" 5000%Z].

Definition bob : User :=
  mkUser 2%N "Bob" "b@x.com" "hash:secret2" "admin"
    [mkRefreshTokenRecord "rt.2" 6000%Z].

Definition users : DB := [alice; bob].

(** One user logged in on two devices. *)
Definition two_devices : DB :=
  [mkUser 1%N "Alice" "a@x.com" "hash:secret1" "user"
     [mkRefreshTokenRecord "rt.1" 5000%Z;
      mkRefreshTokenRecord "rt.1.phone" 5500%Z]].

(** A codec with a fixed table of tokens: ["rt.n"] and ["at.n"] are the
    refresh and the access token of user [n]. *)
Definition verifyRefreshToken (now : Z) (tok : string) : jwt_result :=
  if tok =? "rt.1" then Decoded 1%N
  else if tok =? "rt.1.phone" then Decoded 1%N
  else if tok =? "rt.2" then Decoded 2%N
  else if tok =? "rt.3" then Decoded 3%N
  else if tok =? "rt.1.old" then Throws "TokenExpiredError"
  else if tok =? "rt.early" then Throws "NotBeforeError"
  else Throws "JsonWebTokenError".

Definition verifyAccessToken (now : Z) (tok : string) : jwt_result :=
  if tok =? "at.1" then Decoded 1%N
  else if tok =? "at.2" then Decoded 2%N
  else if tok =? "at.3" then Decoded 3%N
  else if tok =? "at.expired" then Throws "TokenExpiredError"
  else if tok =? "at.early" then Throws "NotBeforeError"
  else Throws "JsonWebTokenError".

Definition generateRefreshToken (now : Z) (id : ObjectId) : string :=
  if N.eqb id 1%N then "rt.1"
  else if N.eqb id 2%N then "rt.2"
  else "rt.3".

Definition generateAccessToken (now : Z) (id : ObjectId) (e r : string)
    : string :=
  if N.eqb id 1%N then "at.1"
  else if N.eqb id 2%N then "at.2"
  else "at.3".

Definition validates (u : User) : bool := true.

(** A server on UTC. *)
Definition utc (t : Z) (isUTC : bool) : Z := 0%Z.

(** A server in New York around the end of daylight saving time on
    2 November 2025, 06:00 UTC: four hours behind UTC before, five after.
    A local time that the clocks show twice is read as the earlier one. *)
Definition fallBack : Z := 1762063200000.

Definition newYork (t : Z) (isUTC : bool) : Z :=
  if isUTC
  then if (t <? fallBack)%Z then (-14400000)%Z else (-18000000)%Z
  else if (t <? fallBack - 14400000)%Z then (-14400000)%Z else (-18000000)%Z.

(** One user with a record made thirty days and thirty minutes before
    12 November 2025, 12:00 UTC. *)
Definition noon : Z := 1762948800000.

Definition autumn : DB :=
  [mkUser 1%N "Alice" "a@x.com" "hash:secret1" "user"
     [mkRefreshTokenRecord "rt.1" (noon - 30 * 86400000 - 1800000)%Z]].

Definition hashPassword (p : string) : string := "hash:" ++ p.

Definition comparePassword (u : User) (candidate : string) : bool :=
  password u =? hashPassword candidate.

End Demo.

(** ** The rest of the sweeper (utils/tokenCleanup.js) *)

(** What [cleanupAllExpiredTokens] returns. *)
Record CleanupTotals := mkCleanupTotals {
  totalCleaned : nat;
  usersProcessed : nat
}.

(** What [getCleanupStats] returns. *)
Record CleanupStats := mkCleanupStats {
  totalUsers : nat;
  totalTokens : nat;
  validTokens : nat;
  expiredTokens : nat;
  cleanupNeeded : bool
}.

(** [User.find({ refreshTokens: { $exists: true, $not: { $size: 0 } } })] *)
Definition find_with_tokens (db : DB) : list User :=
  filter (fun u => match refreshTokens u with [] => false | _ :: _ => true end)
    db.

(** The answers of the routes below: [res.status(c).json({ success, message,
    data })]. *)
Record Reply (D : Type) := mkReply {
  reply_status : nat;
  reply_success : bool;
  reply_message : option string;
  reply_data : option D
}.

Arguments mkReply {D} _ _ _ _.
Arguments reply_status {D} _.
Arguments reply_success {D} _.
Arguments reply_message {D} _.
Arguments reply_data {D} _.

Definition refuse {D : Type} (c : nat) (m : string) : Reply D :=
  mkReply c false (Some m) None.

(** The [result] object of [POST /auth/cleanup-tokens]. *)
Inductive CleanupResult :=
| GlobalScope (expiredTokensCleaned processed oldTokensCleaned : nat)
| UserScope (userId : string) (tokensCleaned : nat)
| SelfScope (userId : ObjectId) (tokensCleaned : nat).

(** The [data] of [GET /auth/token-stats]. *)
Inductive TokenStats :=
| GlobalStats (stats : CleanupStats)
| SelfStats (userId : ObjectId) (total valid expired : nat) (needed : bool).

(** The [data] of [POST /auth/clear-tokens]. *)
Record ClearedTokens := mkClearedTokens {
  cleared_userId : string;
  tokensCleared : nat
}.

(** The [data] of [GET /auth/tokens]; an entry is [createdAt] and
    [tokenPreview]. *)
Record TokenListing := mkTokenListing {
  listing_userId : ObjectId;
  totalRefreshTokens : nat;
  listing_tokens : list (Z * string)
}.

(** [t.token.substring(0, 20) + "..."] *)
Definition tokenPreview (t : RefreshTokenRecord) : string :=
  (substring 0 20 (token t) ++ "...")%string.

(** [findByIdAndDelete]: the first document with that [_id] goes. *)
Fixpoint delete_by_id (db : DB) (id : ObjectId) : DB :=
  match db with
  | [] => []
  | u :: rest => if N.eqb (_id u) id then rest else u :: delete_by_id rest id
  end.

Section Maintenance.

Variable verifyAccessToken : Z -> string -> jwt_result.
Variable verifyRefreshToken : Z -> string -> jwt_result.

(** [ObjectId.prototype.toString] and the cast of a string to an ObjectId
    that [findById] makes; the cast throws a CastError on a string that is no
    ObjectId. *)
Variable idToString : ObjectId -> string.
Variable castObjectId : string -> option ObjectId.
Variable LocalTZA : Z -> bool -> Z.

(** One turn of the loop of [cleanupAllExpiredTokens] over the users found:
    the state is [(totalCleaned, usersProcessed)] and the collection. *)
Definition global_step (now : Z) (st : nat * nat * DB) (user : User)
    : nat * nat * DB :=
  let '(total, processed, db) := st in
  let (cleaned, db) :=
    cleanupUserRefreshTokens verifyRefreshToken db now (_id user) in
  (total + cleaned, S processed, db).

(** [cleanupAllExpiredTokens()] *)
Definition cleanupAllExpiredTokens (db : DB) (now : Z) : CleanupTotals * DB :=
  let users := find_with_tokens db in
  let '(total, processed, db) :=
    fold_left (global_step now) users (0, 0, db) in
  (mkCleanupTotals total processed, db).

(** The inner loop of [getCleanupStats]: the counters are
    [(totalTokens, validTokens, expiredTokens)]. *)
Definition stats_token_step (now : Z) (acc : nat * nat * nat)
    (tokenObj : RefreshTokenRecord) : nat * nat * nat :=
  let '(total, valid, expired) := acc in
  match verifyRefreshToken now (token tokenObj) with
  | Decoded _ => (S total, S valid, expired)
  | Throws _ => (S total, valid, S expired)
  end.

Definition stats_user_step (now : Z) (acc : nat * nat * nat) (user : User)
    : nat * nat * nat :=
  fold_left (stats_token_step now) (refreshTokens user) acc.

(** [getCleanupStats()] *)
Definition getCleanupStats (db : DB) (now : Z) : CleanupStats :=
  let users := find_with_tokens db in
  let '(total, valid, expired) :=
    fold_left (stats_user_step now) users (0, 0, 0) in
  mkCleanupStats (List.length users) total valid expired (0 <? expired)%nat.

(** The records of [u] whose token fails, and passes, verification at [now],
    counted; and [u] with the former taken out. *)
Definition expired_of (now : Z) (u : User) : nat :=
  List.length
    (filter (fun r => negb (still_verifies verifyRefreshToken now r))
       (refreshTokens u)).

Definition valid_of (now : Z) (u : User) : nat :=
  List.length (filter (still_verifies verifyRefreshToken now) (refreshTokens u)).

Definition without_expired (now : Z) (u : User) : User :=
  set_refreshTokens u
    (filter (still_verifies verifyRefreshToken now) (refreshTokens u)).

(** The callback that [scheduleCleanup] hands to [setInterval]: the global
    sweep, then the age-based sweep of thirty days. *)
Definition periodic_cleanup (db : DB) (now : Z) : DB :=
  let (_, db) := cleanupAllExpiredTokens db now in
  let (_, db) := cleanupOldTokens LocalTZA db now (Some 30%Z) in
  db.

(** [cleanupUserRefreshTokens(userId)] called with a string: the CastError of
    [findById] is caught by the function's own [catch], which returns 0. *)
Definition cleanupUserRefreshTokens_string (db : DB) (now : Z)
    (userId : string) : nat * DB :=
  match castObjectId userId with
  | Some id => cleanupUserRefreshTokens verifyRefreshToken db now id
  | None => (0, db)
  end.

(** ** The token routes of routes/auth.js, behind the guard *)

Definition is_literal (field : option string) (s : string) : bool :=
  match field with Some v => v =? s | None => false end.

(** The handler of [POST /auth/cleanup-tokens]. *)
Definition cleanup_tokens (db : DB) (now : Z) (req_user : UserView)
    (userId scope : option string) : Reply CleanupResult * DB :=
  let admin := view_role req_user =? "admin" in
  let (result, db) :=
    if is_literal scope "all" && admin
    then
      let (globalResult, db) := cleanupAllExpiredTokens db now in
      let (oldTokensResult, db) :=
        cleanupOldTokens LocalTZA db now (Some 30%Z) in
      (GlobalScope (totalCleaned globalResult) (usersProcessed globalResult)
         oldTokensResult, db)
    else if truthy userId && admin
    then
      let (cleaned, db) := cleanupUserRefreshTokens_string db now (text userId) in
      (UserScope (text userId) cleaned, db)
    else
      let (cleaned, db) :=
        cleanupUserRefreshTokens verifyRefreshToken db now (view_id req_user) in
      (SelfScope (view_id req_user) cleaned, db) in
  (mkReply 200 true (Some "Token cleanup completed") (Some result), db).

(** The handler of [GET /auth/token-stats]. *)
Definition token_stats (db : DB) (now : Z) (req_user : UserView)
    : Reply TokenStats :=
  if view_role req_user =? "admin"
  then mkReply 200 true None (Some (GlobalStats (getCleanupStats db now)))
  else
    match findById db (view_id req_user) with
    | None => refuse 500 "Internal server error"
    | Some user =>
        let '(_, validTokens, expiredTokens) :=
          fold_left (stats_token_step now) (refreshTokens user) (0, 0, 0) in
        mkReply 200 true None
          (Some (SelfStats (view_id req_user)
                   (List.length (refreshTokens user)) validTokens expiredTokens
                   (0 <? expiredTokens)%nat))
    end.

(** The handler of [POST /auth/clear-tokens]. *)
Definition clear_tokens (db : DB) (req_user : UserView)
    (userId : option string) : Reply ClearedTokens * DB :=
  if truthy userId && negb (view_role req_user =? "admin")
     && negb (text userId =? idToString (view_id req_user))
  then (refuse 403 "Not authorized to clear other user's tokens", db)
  else
    let target :=
      if truthy userId then castObjectId (text userId)
      else Some (view_id req_user) in
    match target with
    | None => (refuse 500 "Internal server error", db)
    | Some targetUserId =>
        match findById db targetUserId with
        | None => (refuse 404 "User not found", db)
        | Some user =>
            let tokenCount := List.length (refreshTokens user) in
            (mkReply 200 true
               (Some ("Cleared "
                      ++ NilEmpty.string_of_uint (Nat.to_uint tokenCount)
                      ++ " refresh tokens")%string)
               (Some (mkClearedTokens
                        (if truthy userId then text userId
                         else idToString (view_id req_user))
                        tokenCount)),
             save_refreshTokens db targetUserId [])
        end
    end.

(** The handler of [GET /auth/tokens]. *)
Definition list_tokens (db : DB) (req_user : UserView) : Reply TokenListing :=
  match findById db (view_id req_user) with
  | None => refuse 500 "Internal server error"
  | Some user =>
      mkReply 200 true None
        (Some (mkTokenListing (_id user) (List.length (refreshTokens user))
                 (map (fun t => (createdAt t, tokenPreview t))
                    (refreshTokens user))))
  end.

(** [GET /auth/me-query]: the access token comes in the query string and the
    route does without the guard. *)
Definition me_query (db : DB) (now : Z) (token : option string)
    : Reply UserView :=
  if negb (truthy token)
  then refuse 401 "Access denied. No token provided in query parameter."
  else
    match verifyAccessToken now (text token) with
    | Decoded id =>
        match findById db id with
        | None => refuse 401 "Invalid token. User not found."
        | Some user => mkReply 200 true None (Some (select_profile user))
        end
    | Throws error_name =>
        if error_name =? "JsonWebTokenError" then refuse 401 "Invalid token."
        else if error_name =? "TokenExpiredError"
        then refuse 401 "Token expired."
        else refuse 500 "Internal server error"
    end.

(** ** User management (routes/users.js), behind the guard *)

(** The handler of [GET /users/:id]. *)
Definition get_user (db : DB) (req_user : UserView) (id : string)
    : Reply UserView :=
  if negb (view_role req_user =? "admin")
     && negb (idToString (view_id req_user) =? id)
  then refuse 403 "Access denied"
  else
    match castObjectId id with
    | None => refuse 500 "Internal server error"
    | Some target =>
        match findById db target with
        | None => refuse 404 "User not found"
        | Some user => mkReply 200 true None (Some (select_profile user))
        end
    end.

(** [DELETE /users/:id]: the role gate, then the handler. *)
Definition delete_user (db : DB) (req_user : UserView) (id : string)
    : Reply unit * DB :=
  match adminAuth req_user with
  | Some res => (refuse (status res) (text (message res)), db)
  | None =>
      match castObjectId id with
      | None => (refuse 500 "Internal server error", db)
      | Some target =>
          match findById db target with
          | None => (refuse 404 "User not found", db)
          | Some _ =>
              (mkReply 200 true (Some "User deleted successfully") None,
               delete_by_id db target)
          end
      end
  end.

End Maintenance.

(** ** The audit log (models/ActivityLog.js, [logActivity] of
    utils/activityLogger.js) *)

Record ActivityLogEntry := mkActivityLogEntry {
  log_userId : ObjectId;
  log_action : string;
  log_ipAddress : option string;
  log_userAgent : option string;
  log_success : bool;
  log_details : option string;
  log_timestamp : Z
}.

(** The [enum] of the [action] path of the schema. *)
Definition action_enum : list string :=
  ["login"; "logout"; "logout_all"; "profile_access"; "profile_update";
   "token_refresh"; "google_login"; "password_change"].

(** What [logActivity] reads of the request. [connection_socket] is
    [req.connection.socket], when there is one, with its [remoteAddress]. *)
Record RequestMeta := mkRequestMeta {
  req_ip : option string;
  connection_remoteAddress : option string;
  socket_remoteAddress : option string;
  connection_socket : option (option string);
  user_agent : option string
}.

(** [a || b] on values that are absent or strings. *)
Definition js_or (a b : option string) : option string :=
  if truthy a then a else b.

Definition ipAddress_of (req : RequestMeta) : option string :=
  js_or (req_ip req)
    (js_or (connection_remoteAddress req)
       (js_or (socket_remoteAddress req)
          (match connection_socket req with
           | Some remoteAddress => remoteAddress
           | None => None
           end))).

(** [logActivity(userId, action, req, success, details)]: [ActivityLog.create]
    validates the entry against the schema, and the [catch] swallows the
    ValidationError of an action outside the enum. *)
Definition logActivity (log : list ActivityLogEntry) (now : Z)
    (userId : ObjectId) (action : string) (req : RequestMeta)
    (success : bool) (details : option string) : list ActivityLogEntry :=
  if existsb (String.eqb action) action_enum
  then log ++ [mkActivityLogEntry userId action (ipAddress_of req)
                 (user_agent req) success details now]
  else log.

(** A second small instance: ids are written ["id<n>"]. *)
Module DemoAdmin.

Definition idToString (id : ObjectId) : string :=
  if N.eqb id 1 then "id1" else if N.eqb id 2 then "id2" else "id3".

Definition castObjectId (s : string) : option ObjectId :=
  if s =? "id1" then Some 1%N
  else if s =? "id2" then Some 2%N
  else if s =? "id3" then Some 3%N
  else None.

Definition browser : RequestMeta :=
  mkRequestMeta (Some "10.0.0.7") None None None (Some "curl/8").

End DemoAdmin.

(** ** Properties of the store *)

Lemma findById_save (db : DB) (id id' : ObjectId)
    (l : list RefreshTokenRecord) :
  findById (save_refreshTokens db id l) id' =
  if N.eqb id' id
  then option_map (fun u => set_refreshTokens u l) (findById db id')
  else findById db id'.
Proof.
  unfold findById, save_refreshTokens.
  induction db as [|u db IH]; simpl.
  - destruct (N.eqb id' id); reflexivity.
  - destruct (N.eqb (_id u) id) eqn:Eu; simpl;
      destruct (N.eqb (_id u) id') eqn:Eu'; simpl.
    + apply N.eqb_eq in Eu, Eu'. subst id id'. rewrite N.eqb_refl. reflexivity.
    + exact IH.
    + apply N.eqb_eq in Eu'. subst id'. rewrite Eu. reflexivity.
    + exact IH.
Qed.

Lemma tokens_of_save (db : DB) (id : ObjectId) (u : User)
    (l : list RefreshTokenRecord) :
  findById db id = Some u -> tokens_of (save_refreshTokens db id l) id = l.
Proof.
  intros H. unfold tokens_of. rewrite findById_save, N.eqb_refl, H. reflexivity.
Qed.

Lemma tokens_of_save_other (db : DB) (id id' : ObjectId)
    (l : list RefreshTokenRecord) :
  id' <> id -> tokens_of (save_refreshTokens db id l) id' = tokens_of db id'.
Proof.
  intros H. unfold tokens_of. rewrite findById_save.
  apply N.eqb_neq in H. rewrite H. reflexivity.
Qed.

(** ** Properties of the sweeps *)

Section SweepFacts.

Variable verifyRefreshToken : Z -> string -> jwt_result.

Lemma sweep_from (now : Z) (l : list RefreshTokenRecord)
    (acc : list RefreshTokenRecord * nat) :
  fold_left (sweep_step verifyRefreshToken now) l acc =
  (fst acc ++ filter (still_verifies verifyRefreshToken now) l,
   snd acc + List.length (filter (fun r => negb (still_verifies verifyRefreshToken now r)) l)).
Proof.
  revert acc. induction l as [|r l IH]; intros [valid n]; simpl.
  - now rewrite app_nil_r, Nat.add_0_r.
  - rewrite IH. unfold sweep_step, still_verifies. simpl.
    destruct (verifyRefreshToken now (token r)); simpl.
    + now rewrite <- app_assoc.
    + now rewrite Nat.add_succ_r.
Qed.

Lemma sweep_filter (now : Z) (l : list RefreshTokenRecord) :
  sweep verifyRefreshToken now l =
  (filter (still_verifies verifyRefreshToken now) l,
   List.length (filter (fun r => negb (still_verifies verifyRefreshToken now r)) l)).
Proof. unfold sweep. now rewrite sweep_from. Qed.

Lemma filter_all (A : Type) (f : A -> bool) (l : list A) :
  (forall x, In x l -> f x = true) -> filter f l = l.
Proof.
  induction l as [|x l IH]; simpl; intros H; [reflexivity|].
  rewrite (H x (or_introl eq_refl)). f_equal. apply IH. auto.
Qed.

Lemma none_dropped (A : Type) (f : A -> bool) (l : list A) :
  List.length (filter (fun x => negb (f x)) l) = 0 ->
  forall x, In x l -> f x = true.
Proof.
  induction l as [|y l IH]; simpl; intros H x Hx; [contradiction|].
  destruct (f y) eqn:E; simpl in H; [|discriminate].
  destruct Hx as [<-|Hx]; auto.
Qed.

Lemma dropped_none (A : Type) (f : A -> bool) (l : list A) :
  (forall x, In x l -> f x = true) ->
  List.length (filter (fun x => negb (f x)) l) = 0.
Proof.
  induction l as [|y l IH]; simpl; intros H; [reflexivity|].
  rewrite (H y (or_introl eq_refl)). simpl. apply IH. auto.
Qed.

(** What one run of the per-user sweep returns and leaves behind. *)
Lemma cleanup_run (db : DB) (now : Z) (id : ObjectId) :
  fst (cleanupUserRefreshTokens verifyRefreshToken db now id) =
    List.length (filter (fun r => negb (still_verifies verifyRefreshToken now r)) (tokens_of db id))
  /\ tokens_of (snd (cleanupUserRefreshTokens verifyRefreshToken db now id)) id =
    filter (still_verifies verifyRefreshToken now) (tokens_of db id).
Proof.
  assert (Hl : tokens_of db id =
               match findById db id with Some u => refreshTokens u | None => [] end)
    by reflexivity.
  rewrite Hl. clear Hl. unfold cleanupUserRefreshTokens.
  destruct (findById db id) as [u|] eqn:Hu; simpl.
  - rewrite sweep_filter.
    destruct (Nat.ltb_spec 0
      (List.length (filter (fun r => negb (still_verifies verifyRefreshToken now r))
         (refreshTokens u)))) as [Hpos|Hzero]; simpl.
    + split; [reflexivity|]. now apply tokens_of_save with (u := u).
    + split; [reflexivity|]. unfold tokens_of. rewrite Hu.
      symmetry. apply filter_all. apply none_dropped. lia.
  - split; [reflexivity|]. unfold tokens_of. now rewrite Hu.
Qed.

Lemma cleanup_noop (db : DB) (now : Z) (id : ObjectId) :
  (forall r, In r (tokens_of db id) -> still_verifies verifyRefreshToken now r = true) ->
  cleanupUserRefreshTokens verifyRefreshToken db now id = (0, db).
Proof.
  intros H. unfold cleanupUserRefreshTokens. unfold tokens_of in H.
  destruct (findById db id) as [u|]; [|reflexivity].
  rewrite sweep_filter, (dropped_none _ _ _ H). reflexivity.
Qed.

(** The sweep touches the record list of [id] only, and no other field. *)
Lemma cleanup_findById (db : DB) (now : Z) (id id' : ObjectId) :
  findById (snd (cleanupUserRefreshTokens verifyRefreshToken db now id)) id' =
  option_map
    (fun u => if N.eqb id' id
              then set_refreshTokens u (filter (still_verifies verifyRefreshToken now) (refreshTokens u))
              else u)
    (findById db id').
Proof.
  unfold cleanupUserRefreshTokens.
  destruct (findById db id) as [u|] eqn:Hu; simpl.
  - rewrite sweep_filter.
    destruct (Nat.ltb_spec 0
      (List.length (filter (fun r => negb (still_verifies verifyRefreshToken now r))
         (refreshTokens u)))) as [Hpos|Hzero]; simpl.
    + rewrite findById_save.
      destruct (N.eqb_spec id' id) as [->|Hne].
      * rewrite Hu. reflexivity.
      * now destruct (findById db id').
    + destruct (N.eqb_spec id' id) as [->|Hne].
      * rewrite Hu. simpl. rewrite filter_all.
        -- now destruct u.
        -- apply none_dropped. lia.
      * now destruct (findById db id').
  - destruct (N.eqb_spec id' id) as [->|Hne].
    + now rewrite Hu.
    + now destruct (findById db id').
Qed.

End SweepFacts.

(** C6: the per-user sweep is idempotent.  The first run returns the number
    of records whose token does not verify and leaves exactly the records
    whose token verifies; a second run, at a time when the same tokens of the
    list verify, removes nothing, returns zero and leaves the collection as
    it found it. *)
Theorem per_user_sweep_idempotent
    (verifyRefreshToken : Z -> string -> jwt_result)
    (db : DB) (now1 now2 : Z) (userId : ObjectId) :
  (forall r, In r (tokens_of db userId) ->
     still_verifies verifyRefreshToken now2 r =
     still_verifies verifyRefreshToken now1 r) ->
  let run1 := cleanupUserRefreshTokens verifyRefreshToken db now1 userId in
  tokens_of (snd run1) userId =
    filter (still_verifies verifyRefreshToken now1) (tokens_of db userId)
  /\ fst run1 =
    List.length (filter (fun r => negb (still_verifies verifyRefreshToken now1 r))
                   (tokens_of db userId))
  /\ cleanupUserRefreshTokens verifyRefreshToken (snd run1) now2 userId =
    (0, snd run1).
Proof.
  intros Hsame run1.
  destruct (cleanup_run verifyRefreshToken db now1 userId) as [Hn Hl].
  fold run1 in Hn, Hl. repeat split; try assumption.
  apply cleanup_noop. rewrite Hl. intros r Hr.
  apply filter_In in Hr. destruct Hr as [Hin Hok].
  now rewrite Hsame.
Qed.

Lemma per_user_sweep_idempotent_witness :
  let run1 := cleanupUserRefreshTokens Demo.verifyRefreshToken Demo.users 0 1%N in
  fst run1 = 1
  /\ tokens_of (snd run1) 1%N = [mkRefreshTokenRecord "rt.1" 5000%Z]
  /\ cleanupUserRefreshTokens Demo.verifyRefreshToken (snd run1) 7 1%N =
     (0, snd run1).
Proof.
  pose proof (per_user_sweep_idempotent Demo.verifyRefreshToken Demo.users
                0 7 1%N (fun r _ => eq_refl)) as H.
  cbv zeta in H. destruct H as [Hl [Hn Hagain]].
  split; [exact Hn|]. split; [exact Hl|exact Hagain].
Defined.

(** ** The age-based sweep *)

Lemma findById_map (f : User -> User) (db : DB) (id : ObjectId) :
  (forall u, _id (f u) = _id u) ->
  findById (map f db) id = option_map f (findById db id).
Proof.
  intros Hf. unfold findById.
  induction db as [|u db IH]; simpl; [reflexivity|].
  rewrite Hf. destruct (N.eqb (_id u) id); [reflexivity|exact IH].
Qed.

Lemma cleanupOldTokens_at (LocalTZA : Z -> bool -> Z) (db : DB) (now : Z)
    (olderThanDays : option Z) (cutoff : Z) :
  cutoffDate LocalTZA now
    (match olderThanDays with Some d => d | None => 30%Z end) = Some cutoff ->
  cleanupOldTokens LocalTZA db now olderThanDays =
  (List.length (filter (fun u => existsb (older_than cutoff) (refreshTokens u)) db),
   map (fun u =>
          if existsb (older_than cutoff) (refreshTokens u)
          then set_refreshTokens u
                 (filter (fun r => negb (older_than cutoff r)) (refreshTokens u))
          else u) db).
Proof. intros H. unfold cleanupOldTokens. now rewrite H. Qed.

Lemma cleanupOldTokens_invalid (LocalTZA : Z -> bool -> Z) (db : DB) (now : Z)
    (olderThanDays : option Z) :
  cutoffDate LocalTZA now
    (match olderThanDays with Some d => d | None => 30%Z end) = None ->
  cleanupOldTokens LocalTZA db now olderThanDays = (0, db).
Proof. intros H. unfold cleanupOldTokens. now rewrite H. Qed.

Lemma cleanupOldTokens_tokens (LocalTZA : Z -> bool -> Z) (db : DB) (now : Z)
    (olderThanDays : option Z) (cutoff : Z) (id : ObjectId) :
  cutoffDate LocalTZA now
    (match olderThanDays with Some d => d | None => 30%Z end) = Some cutoff ->
  tokens_of (snd (cleanupOldTokens LocalTZA db now olderThanDays)) id =
  filter (fun r => negb (older_than cutoff r)) (tokens_of db id).
Proof.
  intros Hc. rewrite (cleanupOldTokens_at LocalTZA db now olderThanDays cutoff Hc).
  unfold tokens_of. cbn [snd].
  rewrite findById_map.
  - destruct (findById db id) as [u|]; simpl; [|reflexivity].
    destruct (existsb (older_than cutoff) (refreshTokens u)) eqn:E;
      simpl; [reflexivity|].
    symmetry. apply filter_all. intros r Hr.
    destruct (older_than cutoff r) eqn:Er; [|reflexivity].
    assert (existsb (older_than cutoff) (refreshTokens u) = true)
      by (apply existsb_exists; eauto).
    congruence.
  - intros u. now destruct (existsb _ _).
Qed.





(** ** The access guard *)

Lemma bearer_none (authHeader : option string) :
  bearer authHeader = None <->
  authHeader = None \/
  exists h, authHeader = Some h /\ prefix "Bearer " h = false.
Proof.
  unfold bearer. destruct authHeader as [h|].
  - destruct (h =? "") eqn:Eh; simpl.
    + apply String.eqb_eq in Eh. subst h. split; [|reflexivity].
      intros _. right. exists "". split; reflexivity.
    + destruct (prefix "Bearer " h) eqn:Ep; simpl; split.
      * discriminate.
      * intros [H|[h' [H1 H2]]]; [discriminate|]. congruence.
      * intros _. right. exists h. split; [reflexivity|assumption].
      * reflexivity.
  - split; [now left|reflexivity].
Qed.

(** C9: the guard answers 401 exactly when the Authorization header is
    absent or lacks the Bearer prefix, when the token fails verification as
    expired or malformed, or when the user id of the verified claims resolves
    to no user.  When it lets the request through, the user it attaches is the
    resolved document without its password and record list, and the role gate
    composed after it answers 403 whenever that user's role is not admin. *)
Theorem guard_decision
    (verifyAccessToken : Z -> string -> jwt_result)
    (db : DB) (now : Z) (authHeader : option string) :
  ((exists res, auth verifyAccessToken db now authHeader = Denied res
                /\ status res = 401)
   <->
   (authHeader = None
    \/ exists h, authHeader = Some h /\ prefix "Bearer " h = false)
   \/ (exists tok error_name,
         bearer authHeader = Some tok
         /\ verifyAccessToken now tok = Throws error_name
         /\ (error_name = "TokenExpiredError"
             \/ error_name = "JsonWebTokenError"))
   \/ (exists tok id,
         bearer authHeader = Some tok
         /\ verifyAccessToken now tok = Decoded id
         /\ findById db id = None))
  /\ (forall req_user,
        auth verifyAccessToken db now authHeader = Granted req_user ->
        (exists tok id user,
           bearer authHeader = Some tok
           /\ verifyAccessToken now tok = Decoded id
           /\ findById db id = Some user
           /\ req_user = select_profile user)
        /\ view_password req_user = None
        /\ view_refreshTokens req_user = None
        /\ (view_role req_user <> "admin" ->
            adminAuth req_user =
            Some (mkResponse 403 false
                    (Some "Access denied. Admin role required.") None))).
Proof.
  rewrite <- bearer_none. unfold auth.
  destruct (bearer authHeader) as [tok|] eqn:Hb.
  - destruct (verifyAccessToken now tok) as [id|error_name] eqn:Hv.
    + destruct (findById db id) as [user|] eqn:Hu.
      * split.
        -- split.
           ++ intros [res [H _]]. discriminate.
           ++ intros [H|[[t [n [H1 [H2 _]]]]|[t [i [H1 [H2 H3]]]]]];
                try discriminate; congruence.
        -- intros req_user H. injection H as <-.
           split; [exists tok, id, user; auto|].
           split; [reflexivity|]. split; [reflexivity|].
           intros Hrole. unfold adminAuth.
           destruct (view_role (select_profile user) =? "admin") eqn:E;
             [apply String.eqb_eq in E; contradiction|reflexivity].
      * split; [|discriminate].
        split; [|intros _; eexists; split; reflexivity].
        intros _. right. right. exists tok, id. auto.
    + split; [|destruct (error_name =? "JsonWebTokenError");
               [|destruct (error_name =? "TokenExpiredError")]; discriminate].
      destruct (error_name =? "JsonWebTokenError") eqn:Ej.
      * apply String.eqb_eq in Ej.
        split; [|intros _; eexists; split; reflexivity].
        intros _. right. left. exists tok, error_name. auto.
      * destruct (error_name =? "TokenExpiredError") eqn:Ee.
        -- apply String.eqb_eq in Ee.
           split; [|intros _; eexists; split; reflexivity].
           intros _. right. left. exists tok, error_name. auto.
        -- apply String.eqb_neq in Ej, Ee. split.
           ++ intros [res [H Hs]]. injection H as <-. discriminate.
           ++ intros [H|[[t [n [H1 [H2 H3]]]]|[t [i [H1 [H2 _]]]]]];
                try discriminate; try congruence.
              injection H1 as <-. rewrite Hv in H2. injection H2 as <-.
              destruct H3; contradiction.
  - split; [|discriminate].
    split; [intros _; now left|intros _; eexists; split; reflexivity].
Qed.

Lemma guard_decision_witness :
  (exists res, auth Demo.verifyAccessToken Demo.users 0 (Some "Bearer at.3") =
               Denied res /\ status res = 401)
  /\ (exists res, auth Demo.verifyAccessToken Demo.users 0 (Some "at.1") =
                  Denied res /\ status res = 401)
  /\ adminAuth (select_profile Demo.alice) =
     Some (mkResponse 403 false (Some "Access denied. Admin role required.")
             None).
Proof.
  split; [|split].
  - apply (proj1 (guard_decision Demo.verifyAccessToken Demo.users 0
                    (Some "Bearer at.3"))).
    right. right. exists "at.3", 3%N. repeat split.
  - apply (proj1 (guard_decision Demo.verifyAccessToken Demo.users 0
                    (Some "at.1"))).
    left. right. exists "at.1". split; reflexivity.
  - apply (proj2 (guard_decision Demo.verifyAccessToken Demo.users 0
                    (Some "Bearer at.1")) (select_profile Demo.alice) eq_refl).
    discriminate.
Defined.

(** An error of verification that is neither of the two the guard names is
    not an authentication failure for it. *)
Example guard_other_error :
  auth Demo.verifyAccessToken Demo.users 0 (Some "Bearer at.early") =
  Denied (failure 500 "Internal server error.").
Proof. reflexivity. Qed.

(** ** Refresh *)

(** A refresh request never writes to the collection. *)
Lemma refresh_reads_only
    (verifyRefreshToken : Z -> string -> jwt_result)
    (generateAccessToken : Z -> ObjectId -> string -> string -> string)
    (db : DB) (now : Z) (refreshToken : option string) :
  snd (refresh generateAccessToken verifyRefreshToken db now refreshToken) = db.
Proof.
  unfold refresh. destruct (truthy refreshToken); simpl; [|reflexivity].
  destruct (verifyRefreshToken now (text refreshToken)) as [id|n].
  - destruct (findById db id) as [u|]; [|reflexivity].
    now destruct (existsb _ (refreshTokens u)).
  - now destruct ((n =? "JsonWebTokenError") || (n =? "TokenExpiredError")).
Qed.

(** A refresh request succeeds only for a token that verifies, whose claimed
    user exists, and that is found by exact match in that user's list. *)
Lemma refresh_success_inv
    (verifyRefreshToken : Z -> string -> jwt_result)
    (generateAccessToken : Z -> ObjectId -> string -> string -> string)
    (db : DB) (now : Z) (refreshToken : option string) :
  success (fst (refresh generateAccessToken verifyRefreshToken db now
                  refreshToken)) = true ->
  exists id user,
    truthy refreshToken = true
    /\ verifyRefreshToken now (text refreshToken) = Decoded id
    /\ findById db id = Some user
    /\ In (text refreshToken) (map token (refreshTokens user))
    /\ fst (refresh generateAccessToken verifyRefreshToken db now refreshToken) =
       mkResponse 200 true None
         (Some (AccessTokenData
                  (generateAccessToken now (_id user) (email user) (role user)))).
Proof.
  unfold refresh. destruct (truthy refreshToken); cbn [negb]; [|discriminate].
  destruct (verifyRefreshToken now (text refreshToken)) as [id|n] eqn:Hv.
  - destruct (findById db id) as [u|] eqn:Hu; [|discriminate].
    destruct (existsb _ (refreshTokens u)) eqn:E; cbn [negb]; [|discriminate].
    intros _. exists id, u. repeat split; try assumption.
    apply existsb_exists in E. destruct E as [r [Hr Ht]].
    apply String.eqb_eq in Ht. rewrite <- Ht. now apply in_map.
  - destruct ((n =? "JsonWebTokenError") || (n =? "TokenExpiredError"));
      discriminate.
Qed.

(** C2: for a refresh request that presents a token, a verification failure
    (the codec throws TokenExpiredError or JsonWebTokenError) is answered 401
    "Invalid refresh token"; so is a verified token whose claimed user does
    not exist, with the same status and message; a verified token that is in
    the record list of its user is answered 200 with a newly minted access
    token for that user and nothing else; no other request succeeds; and the
    collection, hence every record list, is the same after the request in
    every case. *)
Theorem refresh_outcomes
    (verifyRefreshToken : Z -> string -> jwt_result)
    (generateAccessToken : Z -> ObjectId -> string -> string -> string)
    (db : DB) (now : Z) (refreshToken : option string) :
  truthy refreshToken = true ->
  let answer :=
    refresh generateAccessToken verifyRefreshToken db now refreshToken in
  (forall error_name,
      verifyRefreshToken now (text refreshToken) = Throws error_name ->
      error_name = "TokenExpiredError" \/ error_name = "JsonWebTokenError" ->
      answer = (invalid_refresh_token, db))
  /\ (forall id,
      verifyRefreshToken now (text refreshToken) = Decoded id ->
      findById db id = None ->
      answer = (invalid_refresh_token, db))
  /\ (forall id user,
      verifyRefreshToken now (text refreshToken) = Decoded id ->
      findById db id = Some user ->
      In (text refreshToken) (map token (refreshTokens user)) ->
      answer =
      (mkResponse 200 true None
         (Some (AccessTokenData
                  (generateAccessToken now (_id user) (email user)
                     (role user)))),
       db))
  /\ (success (fst answer) = true ->
      exists id user,
        verifyRefreshToken now (text refreshToken) = Decoded id
        /\ findById db id = Some user
        /\ fst answer =
           mkResponse 200 true None
             (Some (AccessTokenData
                      (generateAccessToken now (_id user) (email user)
                         (role user)))))
  /\ snd answer = db.
Proof.
  intros Ht answer. split; [|split; [|split; [|split]]].
  - intros n Hv Hn. unfold answer, refresh. rewrite Ht, Hv. simpl.
    destruct Hn as [-> | ->]; reflexivity.
  - intros id Hv Hu. unfold answer, refresh. rewrite Ht, Hv, Hu. reflexivity.
  - intros id user Hv Hu Hin. unfold answer, refresh.
    rewrite Ht, Hv, Hu. cbn [negb].
    assert (E : existsb (fun t => token t =? text refreshToken)
                  (refreshTokens user) = true).
    { apply in_map_iff in Hin. destruct Hin as [r [Hr Hin]].
      apply existsb_exists. exists r. split; [exact Hin|].
      now apply String.eqb_eq. }
    now rewrite E.
  - intros Hs. apply refresh_success_inv in Hs.
    destruct Hs as [id [u [_ [Hv [Hu [_ Hr]]]]]]. exists id, u. auto.
  - apply refresh_reads_only.
Qed.

Lemma refresh_outcomes_witness :
  truthy (Some "rt.1") = true
  /\ refresh Demo.generateAccessToken Demo.verifyRefreshToken Demo.users 0
       (Some "rt.1.old") = (invalid_refresh_token, Demo.users)
  /\ refresh Demo.generateAccessToken Demo.verifyRefreshToken Demo.users 0
       (Some "rt.3") = (invalid_refresh_token, Demo.users)
  /\ refresh Demo.generateAccessToken Demo.verifyRefreshToken Demo.users 0
       (Some "rt.1") =
     (mkResponse 200 true None (Some (AccessTokenData "at.1")), Demo.users).
Proof.
  split; [reflexivity|]. split; [|split].
  - apply (refresh_outcomes Demo.verifyRefreshToken Demo.generateAccessToken
             Demo.users 0 (Some "rt.1.old") eq_refl)
      with (error_name := "TokenExpiredError"); [reflexivity|now left].
  - apply (refresh_outcomes Demo.verifyRefreshToken Demo.generateAccessToken
             Demo.users 0 (Some "rt.3") eq_refl) with (id := 3%N);
      reflexivity.
  - pose proof (refresh_outcomes Demo.verifyRefreshToken
                  Demo.generateAccessToken Demo.users 0 (Some "rt.1") eq_refl)
      as H.
    cbv zeta in H. destruct H as [_ [_ [Hmint _]]].
    exact (Hmint 1%N Demo.alice eq_refl eq_refl
             (or_intror (or_introl eq_refl))).
Defined.

Example refresh_other_error :
  refresh Demo.generateAccessToken Demo.verifyRefreshToken Demo.users 0
    (Some "rt.early") = (internal_error, Demo.users).
Proof. reflexivity. Qed.

Example refresh_without_token :
  refresh Demo.generateAccessToken Demo.verifyRefreshToken Demo.users 0 None =
  (failure 401 "Refresh token required", Demo.users).
Proof. reflexivity. Qed.

(** ** Login *)

(** C5: a login attempt that supplies an email and a password and names no
    user, or names a user whose password does not match, is answered 401
    "Invalid credentials": the answer is the same value in both cases, and the
    collection, hence the user's record list, is left as it was. *)
Theorem login_failure_uniform
    (generateAccessToken : Z -> ObjectId -> string -> string -> string)
    (generateRefreshToken : Z -> ObjectId -> string)
    (comparePassword : User -> string -> bool)
    (db : DB) (now : Z) (body : LoginBody) :
  truthy (login_email body) = true ->
  truthy (login_password body) = true ->
  findOne_email db (text (login_email body)) = None
  \/ (exists user,
        findOne_email db (text (login_email body)) = Some user
        /\ comparePassword user (text (login_password body)) = false) ->
  login generateAccessToken generateRefreshToken comparePassword db now body =
  (mkResponse 401 false (Some "Invalid credentials") None, db).
Proof.
  intros He Hp Hbad. unfold login. rewrite He, Hp. simpl.
  destruct Hbad as [Hnone|[user [Hsome Hcmp]]].
  - now rewrite Hnone.
  - now rewrite Hsome, Hcmp.
Qed.

Lemma login_failure_uniform_witness :
  login Demo.generateAccessToken Demo.generateRefreshToken Demo.comparePassword
    Demo.users 0 (mkLoginBody (Some "a@x.com") (Some "guess")) =
  (mkResponse 401 false (Some "Invalid credentials") None, Demo.users)
  /\ login Demo.generateAccessToken Demo.generateRefreshToken
       Demo.comparePassword Demo.users 0
       (mkLoginBody (Some "nobody@x.com") (Some "secret1")) =
     (mkResponse 401 false (Some "Invalid credentials") None, Demo.users).
Proof.
  split.
  - apply login_failure_uniform; [reflexivity|reflexivity|].
    right. exists Demo.alice. split; reflexivity.
  - apply login_failure_uniform; [reflexivity|reflexivity|].
    left. reflexivity.
Defined.

(** ** Registration *)

Lemma map_role_save (db : DB) (id : ObjectId) (l : list RefreshTokenRecord) :
  map role (save_refreshTokens db id l) = map role db.
Proof.
  unfold save_refreshTokens. rewrite map_map. apply map_ext.
  intros u. now destruct (N.eqb (_id u) id).
Qed.

Lemma map_email_save (db : DB) (id : ObjectId) (l : list RefreshTokenRecord) :
  map email (save_refreshTokens db id l) = map email db.
Proof.
  unfold save_refreshTokens. rewrite map_map. apply map_ext.
  intros u. now destruct (N.eqb (_id u) id).
Qed.

(** What a registration that answers 201 has done. *)
Lemma register_created
    (generateAccessToken : Z -> ObjectId -> string -> string -> string)
    (generateRefreshToken : Z -> ObjectId -> string)
    (validates : User -> bool) (hashPassword : string -> string)
    (db : DB) (now : Z) (body : RegisterBody) :
  success (fst (register generateAccessToken generateRefreshToken validates
                  hashPassword db now body)) = true ->
  let created :=
    mkUser (new_id db) (text (reg_name body)) (text (reg_email body))
      (hashPassword (text (reg_password body)))
      (if is_admin_literal (reg_role body) then "admin" else "user") [] in
  let refreshToken := generateRefreshToken now (new_id db) in
  let l := [mkRefreshTokenRecord refreshToken now] in
  register generateAccessToken generateRefreshToken validates hashPassword
    db now body =
  (mkResponse 201 true (Some "User registered successfully")
     (Some (SessionData (toJSON (set_refreshTokens created l))
              (generateAccessToken now (new_id db) (text (reg_email body))
                 (role created))
              refreshToken)),
   save_refreshTokens (db ++ [created]) (new_id db) l).
Proof.
  unfold register.
  destruct (negb (truthy (reg_name body)) || negb (truthy (reg_email body))
            || negb (truthy (reg_password body))); [discriminate|].
  destruct (utf16_length (text (reg_password body)) <? 6)%nat; [discriminate|].
  destruct (findOne_email db (text (reg_email body))); [discriminate|].
  cbn [_id name email password role refreshTokens].
  destruct (validates _); cbn [negb]; [|discriminate].
  intros _. reflexivity.
Qed.

(** C3, as the code has it: a registration request sets the role of the user
    it creates from its own body.  The created user is an admin when the
    body's role field is the string "admin" and a plain user for any other or
    missing value; the roles of the users already there do not change. *)
Theorem register_role_from_body
    (generateAccessToken : Z -> ObjectId -> string -> string -> string)
    (generateRefreshToken : Z -> ObjectId -> string)
    (validates : User -> bool) (hashPassword : string -> string)
    (db : DB) (now : Z) (body : RegisterBody) :
  success (fst (register generateAccessToken generateRefreshToken validates
                  hashPassword db now body)) = true ->
  let db' := snd (register generateAccessToken generateRefreshToken validates
                    hashPassword db now body) in
  map email db' = map email db ++ [text (reg_email body)]
  /\ (reg_role body = Some "admin" -> map role db' = map role db ++ ["admin"])
  /\ (reg_role body <> Some "admin" -> map role db' = map role db ++ ["user"]).
Proof.
  intros Hs db'. unfold db'. rewrite (register_created _ _ _ _ _ _ _ Hs).
  cbn [snd]. rewrite map_role_save, map_email_save, !map_app. cbn [map role email].
  repeat split.
  - intros ->. reflexivity.
  - intros Hr. destruct (reg_role body) as [s|]; cbn [is_admin_literal];
      [|reflexivity].
    destruct (s =? "admin") eqn:E; [|reflexivity].
    apply String.eqb_eq in E. congruence.
Qed.

Lemma register_role_from_body_witness :
  map role
    (snd (register Demo.generateAccessToken Demo.generateRefreshToken
            Demo.validates Demo.hashPassword Demo.users 0
            (mkRegisterBody (Some "Carol") (Some "c@x.com") (Some "secret3")
               (Some "superuser")))) =
  ["user"; "admin"; "user"].
Proof.
  apply (register_role_from_body Demo.generateAccessToken
           Demo.generateRefreshToken Demo.validates Demo.hashPassword
           Demo.users 0
           (mkRegisterBody (Some "Carol") (Some "c@x.com") (Some "secret3")
              (Some "superuser")) eq_refl).
  discriminate.
Defined.

(** C3, as the spec has it, fails: a request nobody authenticated, whose body
    says role "admin", creates an admin. *)
Lemma register_admin_from_body :
  register Demo.generateAccessToken Demo.generateRefreshToken Demo.validates
    Demo.hashPassword [] 0
    (mkRegisterBody (Some "Eve") (Some "e@x.com") (Some "secret9")
       (Some "admin")) =
  (mkResponse 201 true (Some "User registered successfully")
     (Some (SessionData (mkUserView 1 "Eve" "e@x.com" "admin" None None)
              "at.1" "rt.1")),
   [mkUser 1 "Eve" "e@x.com" "hash:secret9" "admin"
      [mkRefreshTokenRecord "rt.1" 0]]).
Proof. vm_compute. reflexivity. Qed.

(** ** What register and login answer *)

(** What a login that succeeds has done. *)
Lemma login_granted
    (generateAccessToken : Z -> ObjectId -> string -> string -> string)
    (generateRefreshToken : Z -> ObjectId -> string)
    (comparePassword : User -> string -> bool)
    (db : DB) (now : Z) (body : LoginBody) :
  success (fst (login generateAccessToken generateRefreshToken comparePassword
                  db now body)) = true ->
  exists user,
    findOne_email db (text (login_email body)) = Some user
    /\ comparePassword user (text (login_password body)) = true
    /\ let refreshToken := generateRefreshToken now (_id user) in
       let l := refreshTokens user ++ [mkRefreshTokenRecord refreshToken now] in
       login generateAccessToken generateRefreshToken comparePassword
         db now body =
       (mkResponse 200 true (Some "Login successful")
          (Some (SessionData (toJSON (set_refreshTokens user l))
                   (generateAccessToken now (_id user) (email user) (role user))
                   refreshToken)),
        save_refreshTokens db (_id user) l).
Proof.
  unfold login.
  destruct (negb (truthy (login_email body))
            || negb (truthy (login_password body))); [discriminate|].
  destruct (findOne_email db (text (login_email body))) as [user|] eqn:Hf;
    [|discriminate].
  destruct (comparePassword user (text (login_password body))) eqn:Hc;
    cbn [negb]; [|discriminate].
  intros _. exists user. cbv zeta. repeat split. exact Hc.
Qed.

(** C8: a register or login request that succeeds answers with the access
    token and the refresh token it minted for the user and with that user's
    profile; the user object of the answer has no password field and no
    refreshTokens field. *)
Theorem session_answer_hides_secrets
    (generateAccessToken : Z -> ObjectId -> string -> string -> string)
    (generateRefreshToken : Z -> ObjectId -> string)
    (validates : User -> bool) (hashPassword : string -> string)
    (comparePassword : User -> string -> bool)
    (db : DB) (now : Z) :
  (forall body,
     let res := fst (register generateAccessToken generateRefreshToken
                       validates hashPassword db now body) in
     success res = true ->
     exists user accessToken refreshToken,
       data res = Some (SessionData user accessToken refreshToken)
       /\ view_password user = None
       /\ view_refreshTokens user = None
       /\ view_name user = text (reg_name body)
       /\ view_email user = text (reg_email body)
       /\ accessToken =
          generateAccessToken now (view_id user) (view_email user)
            (view_role user)
       /\ refreshToken = generateRefreshToken now (view_id user))
  /\ (forall body,
     let res := fst (login generateAccessToken generateRefreshToken
                       comparePassword db now body) in
     success res = true ->
     exists user accessToken refreshToken,
       data res = Some (SessionData user accessToken refreshToken)
       /\ view_password user = None
       /\ view_refreshTokens user = None
       /\ (exists stored,
             findOne_email db (text (login_email body)) = Some stored
             /\ view_id user = _id stored /\ view_name user = name stored
             /\ view_email user = email stored /\ view_role user = role stored)
       /\ accessToken =
          generateAccessToken now (view_id user) (view_email user)
            (view_role user)
       /\ refreshToken = generateRefreshToken now (view_id user)).
Proof.
  split; intros body res Hs; unfold res in *.
  - rewrite (register_created _ _ _ _ _ _ _ Hs). cbn [fst data].
    do 3 eexists. split; [reflexivity|]. repeat split.
  - destruct (login_granted _ _ _ _ _ _ Hs) as [stored [Hf [_ Hl]]].
    cbv zeta in Hl. rewrite Hl. cbn [fst data].
    do 3 eexists. split; [reflexivity|]. repeat split.
    exists stored. repeat split. exact Hf.
Qed.

Lemma session_answer_hides_secrets_witness :
  exists user accessToken refreshToken,
    data (fst (login Demo.generateAccessToken Demo.generateRefreshToken
                 Demo.comparePassword Demo.users 9
                 (mkLoginBody (Some "a@x.com") (Some "secret1")))) =
    Some (SessionData user accessToken refreshToken)
    /\ view_password user = None
    /\ view_refreshTokens user = None.
Proof.
  destruct (proj2 (session_answer_hides_secrets Demo.generateAccessToken
                     Demo.generateRefreshToken Demo.validates
                     Demo.hashPassword Demo.comparePassword Demo.users 9)
              (mkLoginBody (Some "a@x.com") (Some "secret1")) eq_refl)
    as [user [accessToken [refreshToken [Hd [Hp [Hl _]]]]]].
  exists user, accessToken, refreshToken. auto.
Defined.

(** ** Logout and revocation *)

Section Revocation.

Variable generateAccessToken : Z -> ObjectId -> string -> string -> string.
Variable verifyAccessToken : Z -> string -> jwt_result.
Variable verifyRefreshToken : Z -> string -> jwt_result.

Lemma guarded_granted (db : DB) (now : Z) (authHeader : option string)
    (handler : DB -> UserView -> Response * DB) (req_user : UserView) :
  auth verifyAccessToken db now authHeader = Granted req_user ->
  guarded verifyAccessToken verifyRefreshToken db now authHeader handler =
  handler (autoCleanupMiddleware verifyRefreshToken db now req_user) req_user.
Proof. intros H. unfold guarded. now rewrite H. Qed.

Lemma tokens_of_remove (db : DB) (id : ObjectId) (tok : string) :
  tokens_of (removeRefreshToken db id tok) id =
  filter (fun r => negb (token r =? tok)) (tokens_of db id).
Proof.
  unfold removeRefreshToken, tokens_of at 1.
  rewrite findById_save, N.eqb_refl. unfold tokens_of.
  now destruct (findById db id).
Qed.

Lemma tokens_of_clear (db : DB) (id : ObjectId) :
  tokens_of (save_refreshTokens db id []) id = [].
Proof.
  unfold tokens_of. rewrite findById_save, N.eqb_refl.
  now destruct (findById db id).
Qed.

Lemma tokens_of_cleanup_other (db : DB) (now : Z) (id other : ObjectId) :
  other <> id ->
  tokens_of (snd (cleanupUserRefreshTokens verifyRefreshToken db now id)) other =
  tokens_of db other.
Proof.
  intros H. unfold tokens_of. rewrite cleanup_findById.
  apply N.eqb_neq in H. rewrite H. now destruct (findById db other).
Qed.

(** The membership test of the refresh route is the last word: a presented
    token of user [id] that no record of [id] holds is refused. *)
Lemma refresh_absent (db : DB) (now : Z) (tok : string) (id : ObjectId) :
  tok <> "" ->
  issued_to verifyRefreshToken now tok id ->
  ~ In tok (map token (tokens_of db id)) ->
  refresh generateAccessToken verifyRefreshToken db now (Some tok) =
  (invalid_refresh_token, db).
Proof.
  intros Hne Hown Habs. unfold refresh, issued_to in *.
  apply String.eqb_neq in Hne. cbn [truthy text]. rewrite Hne. cbn [negb].
  destruct (verifyRefreshToken now tok) as [claimed|n].
  - subst claimed. unfold tokens_of in Habs.
    destruct (findById db id) as [u|]; [|reflexivity].
    destruct (existsb (fun t => token t =? tok) (refreshTokens u)) eqn:E;
      [|reflexivity].
    exfalso. apply Habs. apply existsb_exists in E.
    destruct E as [r [Hr Ht]]. apply String.eqb_eq in Ht. subst tok.
    now apply in_map.
  - destruct Hown as [-> | ->]; reflexivity.
Qed.

Lemma removed_is_absent (tok : string) (l : list RefreshTokenRecord) :
  ~ In tok (map token (filter (fun r => negb (token r =? tok)) l)).
Proof.
  intros H. apply in_map_iff in H. destruct H as [r [Ht Hr]].
  apply filter_In in Hr. destruct Hr as [_ Hr].
  apply negb_true_iff, String.eqb_neq in Hr. contradiction.
Qed.

End Revocation.

(** C1: a refresh request succeeds only if the presented token verifies and
    is found by exact match in the record list of the user it claims.  So a
    refresh token of the caller that a single-device logout has removed from
    the caller's list is answered 401 "Invalid refresh token" when it is
    presented afterwards, even when it still verifies. *)
Theorem logout_revokes_refresh_token
    (generateAccessToken : Z -> ObjectId -> string -> string -> string)
    (verifyAccessToken verifyRefreshToken : Z -> string -> jwt_result)
    (db : DB) (now later : Z) :
  (forall refreshToken,
     success (fst (refresh generateAccessToken verifyRefreshToken db later
                     refreshToken)) = true ->
     exists id user,
       verifyRefreshToken later (text refreshToken) = Decoded id
       /\ findById db id = Some user
       /\ In (text refreshToken) (map token (refreshTokens user)))
  /\ (forall authHeader req_user tok,
     auth verifyAccessToken db now authHeader = Granted req_user ->
     tok <> "" ->
     issued_to verifyRefreshToken later tok (view_id req_user) ->
     let db' := snd (post_logout verifyAccessToken verifyRefreshToken db now
                       authHeader (Some tok)) in
     ~ In tok (map token (tokens_of db' (view_id req_user)))
     /\ refresh generateAccessToken verifyRefreshToken db' later (Some tok) =
        (invalid_refresh_token, db')).
Proof.
  split.
  - intros refreshToken Hs. apply refresh_success_inv in Hs.
    destruct Hs as [id [u [_ [Hv [Hu [Hin _]]]]]]. exists id, u. auto.
  - intros authHeader req_user tok Hauth Hne Hown db'.
    assert (Habs : ~ In tok (map token (tokens_of db' (view_id req_user)))).
    { unfold db', post_logout. rewrite (guarded_granted _ _ _ _ _ _ _ Hauth).
      unfold logout. cbn [truthy text].
      apply String.eqb_neq in Hne. rewrite Hne. cbn [negb snd].
      rewrite tokens_of_remove. apply removed_is_absent. }
    split; [exact Habs|]. now apply refresh_absent with (id := view_id req_user).
Qed.

Lemma logout_revokes_refresh_token_witness :
  auth Demo.verifyAccessToken Demo.users 0 (Some "Bearer at.1") =
    Granted (select_profile Demo.alice)
  /\ issued_to Demo.verifyRefreshToken 1 "rt.1" 1
  /\ status (fst (refresh Demo.generateAccessToken Demo.verifyRefreshToken
                    Demo.users 1 (Some "rt.1"))) = 200
  /\ fst (refresh Demo.generateAccessToken Demo.verifyRefreshToken
            (snd (post_logout Demo.verifyAccessToken Demo.verifyRefreshToken
                    Demo.users 0 (Some "Bearer at.1") (Some "rt.1")))
            1 (Some "rt.1")) = invalid_refresh_token.
Proof.
  split; [reflexivity|]. split; [reflexivity|]. split; [reflexivity|].
  pose proof (proj2 (logout_revokes_refresh_token Demo.generateAccessToken
                       Demo.verifyAccessToken Demo.verifyRefreshToken
                       Demo.users 0 1)
                (Some "Bearer at.1") (select_profile Demo.alice) "rt.1"
                eq_refl) as H.
  cbv zeta in H. destruct H as [_ H]; [discriminate|reflexivity|].
  rewrite H. reflexivity.
Defined.

(** Logging out on one device leaves the session of the other device alive. *)
Example logout_on_one_device :
  let db' := snd (post_logout Demo.verifyAccessToken Demo.verifyRefreshToken
                    Demo.two_devices 0 (Some "Bearer at.1") (Some "rt.1")) in
  tokens_of db' 1 = [mkRefreshTokenRecord "rt.1.phone" 5500]
  /\ fst (refresh Demo.generateAccessToken Demo.verifyRefreshToken db' 1
            (Some "rt.1.phone")) =
     mkResponse 200 true None (Some (AccessTokenData "at.1")).
Proof. split; reflexivity. Qed.

(** C4: logout-all writes the empty list as the caller's record list in one
    save, and from then on a refresh request that presents any refresh token
    of that user is answered 401 "Invalid refresh token". *)
Theorem logout_all_revokes_every_token
    (generateAccessToken : Z -> ObjectId -> string -> string -> string)
    (verifyAccessToken verifyRefreshToken : Z -> string -> jwt_result)
    (db : DB) (now : Z) (authHeader : option string) (req_user : UserView) :
  auth verifyAccessToken db now authHeader = Granted req_user ->
  let answer :=
    post_logout_all verifyAccessToken verifyRefreshToken db now authHeader in
  fst answer = mkResponse 200 true (Some "Logged out from all devices") None
  /\ snd answer =
     save_refreshTokens
       (autoCleanupMiddleware verifyRefreshToken db now req_user)
       (view_id req_user) []
  /\ tokens_of (snd answer) (view_id req_user) = []
  /\ (forall later tok,
        tok <> "" ->
        issued_to verifyRefreshToken later tok (view_id req_user) ->
        refresh generateAccessToken verifyRefreshToken (snd answer) later
          (Some tok) = (invalid_refresh_token, snd answer)).
Proof.
  intros Hauth answer. unfold answer, post_logout_all.
  rewrite (guarded_granted _ _ _ _ _ _ _ Hauth). unfold logout_all. cbn [fst snd].
  split; [reflexivity|]. split; [reflexivity|].
  split; [apply tokens_of_clear|].
  intros later tok Hne Hown.
  apply refresh_absent with (id := view_id req_user); try assumption.
  now rewrite tokens_of_clear.
Qed.

Lemma logout_all_revokes_every_token_witness :
  auth Demo.verifyAccessToken Demo.users 0 (Some "Bearer at.1") =
    Granted (select_profile Demo.alice)
  /\ tokens_of Demo.users 1 =
     [mkRefreshTokenRecord "rt.1.old" 100; mkRefreshTokenRecord "rt.1" 5000]
  /\ tokens_of
       (snd (post_logout_all Demo.verifyAccessToken Demo.verifyRefreshToken
               Demo.users 0 (Some "Bearer at.1"))) 1 = []
  /\ fst (refresh Demo.generateAccessToken Demo.verifyRefreshToken
            (snd (post_logout_all Demo.verifyAccessToken
                    Demo.verifyRefreshToken Demo.users 0
                    (Some "Bearer at.1")))
            1 (Some "rt.1")) = invalid_refresh_token.
Proof.
  split; [reflexivity|]. split; [reflexivity|].
  pose proof (logout_all_revokes_every_token Demo.generateAccessToken
                Demo.verifyAccessToken Demo.verifyRefreshToken Demo.users 0
                (Some "Bearer at.1") (select_profile Demo.alice) eq_refl)
    as H.
  cbv zeta in H. destruct H as [_ [_ [Hempty Hrefused]]].
  split; [exact Hempty|].
  rewrite (Hrefused 1%Z "rt.1"); [reflexivity|discriminate|reflexivity].
Defined.

(** C10: behind the guard, a logout request whose body has no refreshToken
    does what logout-all does: it writes the empty list as the caller's record
    list and answers "Logged out from all devices".  Only when a refreshToken
    is supplied does the handler keep the caller's other records: it removes
    the records that hold that token and no others.  No other user's list is
    touched either way. *)
Theorem logout_without_token_clears_all
    (verifyAccessToken verifyRefreshToken : Z -> string -> jwt_result)
    (db : DB) (now : Z) (authHeader : option string) (req_user : UserView)
    (refreshToken : option string) :
  auth verifyAccessToken db now authHeader = Granted req_user ->
  let answer :=
    post_logout verifyAccessToken verifyRefreshToken db now authHeader
      refreshToken in
  let before := autoCleanupMiddleware verifyRefreshToken db now req_user in
  (truthy refreshToken = false ->
     answer =
       post_logout_all verifyAccessToken verifyRefreshToken db now authHeader
     /\ fst answer =
        mkResponse 200 true (Some "Logged out from all devices") None
     /\ tokens_of (snd answer) (view_id req_user) = [])
  /\ (truthy refreshToken = true ->
     fst answer = mkResponse 200 true (Some "Logout successful") None
     /\ tokens_of (snd answer) (view_id req_user) =
        filter (fun r => negb (token r =? text refreshToken))
          (tokens_of before (view_id req_user)))
  /\ (forall other, other <> view_id req_user ->
     tokens_of (snd answer) other = tokens_of db other).
Proof.
  intros Hauth answer before. unfold answer, post_logout, post_logout_all.
  rewrite !(guarded_granted _ _ _ _ _ _ _ Hauth). fold before.
  unfold logout, logout_all. split; [|split].
  - intros Hnone. rewrite Hnone. cbn [fst snd].
    split; [reflexivity|]. split; [reflexivity|]. apply tokens_of_clear.
  - intros Hsome. rewrite Hsome. cbn [fst snd].
    split; [reflexivity|]. apply tokens_of_remove.
  - intros other Hother.
    assert (Hb : tokens_of before other = tokens_of db other)
      by (apply tokens_of_cleanup_other; assumption).
    destruct (truthy refreshToken); cbn [snd]; unfold removeRefreshToken;
      now rewrite tokens_of_save_other.
Qed.

Lemma logout_without_token_clears_all_witness :
  auth Demo.verifyAccessToken Demo.users 0 (Some "Bearer at.2") =
    Granted (select_profile Demo.bob)
  /\ tokens_of Demo.users 2 = [mkRefreshTokenRecord "rt.2" 6000]
  /\ post_logout Demo.verifyAccessToken Demo.verifyRefreshToken Demo.users 0
       (Some "Bearer at.2") None =
     (mkResponse 200 true (Some "Logged out from all devices") None,
      [Demo.alice; set_refreshTokens Demo.bob []]).
Proof.
  split; [reflexivity|]. split; [reflexivity|].
  pose proof (logout_without_token_clears_all Demo.verifyAccessToken
                Demo.verifyRefreshToken Demo.users 0 (Some "Bearer at.2")
                (select_profile Demo.bob) None eq_refl) as H.
  cbv zeta in H. destruct H as [Hall _].
  destruct (Hall eq_refl) as [Hsame _]. rewrite Hsame. reflexivity.
Defined.

(** ** More on the per-user sweep *)

Section SweepAccounting.

Variable verifyRefreshToken : Z -> string -> jwt_result.

Lemma kept_plus_dropped (A : Type) (f : A -> bool) (l : list A) :
  List.length (filter f l) + List.length (filter (fun x => negb (f x)) l) =
  List.length l.
Proof.
  induction l as [|x l IH]; simpl; [reflexivity|].
  destruct (f x); simpl; lia.
Qed.

Lemma filter_twice (A : Type) (f : A -> bool) (l : list A) :
  filter f (filter f l) = filter f l.
Proof.
  apply filter_all. intros x Hx. apply filter_In in Hx. tauto.
Qed.

Lemma cleanup_tokens_at (db : DB) (now : Z) (id id' : ObjectId) :
  tokens_of (snd (cleanupUserRefreshTokens verifyRefreshToken db now id)) id' =
  if N.eqb id' id
  then filter (still_verifies verifyRefreshToken now) (tokens_of db id')
  else tokens_of db id'.
Proof.
  destruct (N.eqb_spec id' id) as [->|Hne].
  - apply cleanup_run.
  - now apply tokens_of_cleanup_other.
Qed.

Lemma cleanup_keeps_profiles (db : DB) (now : Z) (id : ObjectId) :
  map select_profile
    (snd (cleanupUserRefreshTokens verifyRefreshToken db now id)) =
  map select_profile db
  /\ map password (snd (cleanupUserRefreshTokens verifyRefreshToken db now id)) =
     map password db.
Proof.
  unfold cleanupUserRefreshTokens.
  destruct (findById db id) as [u|]; [|split; reflexivity].
  destruct (sweep verifyRefreshToken now (refreshTokens u)) as [valid n].
  destruct (0 <? n)%nat; [|split; reflexivity].
  cbn [snd]. unfold save_refreshTokens. rewrite !map_map.
  split; apply map_ext; intros x; now destruct (N.eqb (_id x) id).
Qed.

End SweepAccounting.

(** X1: the number that the per-user sweep returns is the number of records
    that left the user's list; the sweep adds no record, touches no other
    user's list, and changes no profile field or password of anybody. *)
Theorem per_user_sweep_accounting
    (verifyRefreshToken : Z -> string -> jwt_result)
    (db : DB) (now : Z) (userId : ObjectId) :
  let run := cleanupUserRefreshTokens verifyRefreshToken db now userId in
  List.length (tokens_of (snd run) userId) + fst run =
    List.length (tokens_of db userId)
  /\ (forall r, In r (tokens_of (snd run) userId) ->
        In r (tokens_of db userId))
  /\ (forall other, other <> userId ->
        tokens_of (snd run) other = tokens_of db other)
  /\ map select_profile (snd run) = map select_profile db
  /\ map password (snd run) = map password db.
Proof.
  intros run. unfold run.
  destruct (cleanup_run verifyRefreshToken db now userId) as [Hn Hl].
  rewrite Hn, Hl. split; [apply kept_plus_dropped|].
  split; [intros r Hr; apply filter_In in Hr; tauto|].
  split; [intros other Ho; now apply tokens_of_cleanup_other|].
  apply cleanup_keeps_profiles.
Qed.

(** ** The global sweep and the statistics *)

Section GlobalSweep.

Variable verifyRefreshToken : Z -> string -> jwt_result.

Lemma global_step_eq (now : Z) (t p : nat) (db : DB) (u : User) :
  global_step verifyRefreshToken now (t, p, db) u =
  (t + fst (cleanupUserRefreshTokens verifyRefreshToken db now (_id u)),
   S p,
   snd (cleanupUserRefreshTokens verifyRefreshToken db now (_id u))).
Proof.
  unfold global_step.
  now destruct (cleanupUserRefreshTokens verifyRefreshToken db now (_id u)).
Qed.

Lemma global_fold_tokens (now : Z) (us : list User) (st : nat * nat * DB) :
  let out := fold_left (global_step verifyRefreshToken now) us st in
  snd (fst out) = snd (fst st) + List.length us
  /\ forall id,
       tokens_of (snd out) id =
       if existsb (N.eqb id) (map _id us)
       then filter (still_verifies verifyRefreshToken now) (tokens_of (snd st) id)
       else tokens_of (snd st) id.
Proof.
  revert st. induction us as [|u us IH]; intros [[t p] db]; cbn [fold_left].
  - cbn. split; [lia|reflexivity].
  - rewrite global_step_eq. cbv zeta.
    destruct (IH (t + fst (cleanupUserRefreshTokens verifyRefreshToken db now
                             (_id u)), S p,
                  snd (cleanupUserRefreshTokens verifyRefreshToken db now
                         (_id u)))) as [Hp Ht].
    cbn [fst snd] in *. split; [cbn [List.length]; lia|].
    intros id. rewrite Ht, cleanup_tokens_at. cbn [map existsb].
    destruct (N.eqb id (_id u)); cbn [orb].
    + rewrite filter_twice. now destruct (existsb (N.eqb id) (map _id us)).
    + reflexivity.
Qed.

Lemma no_tokens_outside (db : DB) (id : ObjectId) :
  existsb (N.eqb id) (map _id (find_with_tokens db)) = false ->
  tokens_of db id = [].
Proof.
  unfold tokens_of, findById, find_with_tokens.
  induction db as [|u db IH]; cbn [filter find]; [reflexivity|].
  destruct (refreshTokens u) as [|r l] eqn:Hr.
  - intros H. destruct (N.eqb (_id u) id); [exact Hr|auto].
  - cbn [map existsb]. intros H. apply orb_false_iff in H. destruct H as [H1 H2].
    rewrite N.eqb_sym, H1. auto.
Qed.

End GlobalSweep.

(** What the global sweep leaves and counts. *)
Lemma global_sweep_tokens
    (verifyRefreshToken : Z -> string -> jwt_result) (db : DB) (now : Z) :
  let run := cleanupAllExpiredTokens verifyRefreshToken db now in
  (forall id,
     tokens_of (snd run) id =
     filter (still_verifies verifyRefreshToken now) (tokens_of db id))
  /\ usersProcessed (fst run) = List.length (find_with_tokens db).
Proof.
  intros run. unfold run, cleanupAllExpiredTokens.
  pose proof (global_fold_tokens verifyRefreshToken now (find_with_tokens db)
                (0, 0, db)) as H.
  cbv zeta in H.
  destruct (fold_left (global_step verifyRefreshToken now) (find_with_tokens db)
              (0, 0, db)) as [[t p] db'].
  cbn [fst snd usersProcessed] in *. destruct H as [Hp Ht].
  split; [|exact Hp].
  intros id. rewrite Ht.
  destruct (existsb (N.eqb id) (map _id (find_with_tokens db))) eqn:E;
    [reflexivity|].
  now rewrite (no_tokens_outside db id E).
Qed.

(** X2: after the global sweep every user's list holds exactly those of its
    records whose token verifies, in their order, and the number of users
    processed is the number of users that had a record. *)
Theorem global_sweep_result
    (verifyRefreshToken : Z -> string -> jwt_result) (db : DB) (now : Z) :
  let run := cleanupAllExpiredTokens verifyRefreshToken db now in
  (forall id,
     tokens_of (snd run) id =
     filter (still_verifies verifyRefreshToken now) (tokens_of db id))
  /\ usersProcessed (fst run) = List.length (find_with_tokens db).
Proof. exact (global_sweep_tokens verifyRefreshToken db now). Qed.

Section Statistics.

Variable verifyRefreshToken : Z -> string -> jwt_result.

Lemma stats_token_step_eq (now : Z) (t v e : nat) (r : RefreshTokenRecord) :
  stats_token_step verifyRefreshToken now (t, v, e) r =
  if still_verifies verifyRefreshToken now r
  then (S t, S v, e) else (S t, v, S e).
Proof.
  unfold stats_token_step, still_verifies.
  now destruct (verifyRefreshToken now (token r)).
Qed.

Lemma stats_token_fold (now : Z) (l : list RefreshTokenRecord) (t v e : nat) :
  fold_left (stats_token_step verifyRefreshToken now) l (t, v, e) =
  (t + List.length l,
   v + List.length (filter (still_verifies verifyRefreshToken now) l),
   e + List.length
         (filter (fun r => negb (still_verifies verifyRefreshToken now r)) l)).
Proof.
  revert t v e. induction l as [|r l IH]; intros t v e;
    cbn [fold_left filter List.length].
  - (apply f_equal2; [apply f_equal2|]; lia).
  - rewrite stats_token_step_eq.
    destruct (still_verifies verifyRefreshToken now r); cbn [negb];
      rewrite IH; cbn [List.length]; (apply f_equal2; [apply f_equal2|]; lia).
Qed.

Lemma stats_user_fold (now : Z) (us : list User) (t v e : nat) :
  fold_left (stats_user_step verifyRefreshToken now) us (t, v, e) =
  (t + list_sum (map (fun u => List.length (refreshTokens u)) us),
   v + list_sum (map (valid_of verifyRefreshToken now) us),
   e + list_sum (map (expired_of verifyRefreshToken now) us)).
Proof.
  revert t v e. induction us as [|u us IH]; intros t v e; cbn [fold_left].
  - cbn. (apply f_equal2; [apply f_equal2|]; lia).
  - unfold stats_user_step at 2. rewrite stats_token_fold, IH.
    simpl map; simpl list_sum. unfold valid_of at 2, expired_of at 2.
    (apply f_equal2; [apply f_equal2|]; lia).
Qed.

Lemma sum_over_find_with_tokens (g : User -> nat) (db : DB) :
  (forall u, refreshTokens u = [] -> g u = 0) ->
  list_sum (map g (find_with_tokens db)) = list_sum (map g db).
Proof.
  intros Hg. unfold find_with_tokens.
  induction db as [|u db IH]; simpl filter; simpl map; simpl list_sum; [reflexivity|].
  destruct (refreshTokens u) eqn:Hr.
  - now rewrite (Hg u Hr).
  - simpl map; simpl list_sum. now rewrite IH.
Qed.

Lemma getCleanupStats_sums (db : DB) (now : Z) :
  getCleanupStats verifyRefreshToken db now =
  mkCleanupStats
    (List.length (find_with_tokens db))
    (list_sum (map (fun u => List.length (refreshTokens u)) db))
    (list_sum (map (valid_of verifyRefreshToken now) db))
    (list_sum (map (expired_of verifyRefreshToken now) db))
    (0 <? list_sum (map (expired_of verifyRefreshToken now) db))%nat.
Proof.
  unfold getCleanupStats. rewrite stats_user_fold. cbn [Nat.add].
  rewrite !sum_over_find_with_tokens; [reflexivity| | |].
  - intros u Hu. unfold expired_of. now rewrite Hu.
  - intros u Hu. unfold valid_of. now rewrite Hu.
  - intros u Hu. now rewrite Hu.
Qed.

Lemma sum_split (db : DB) (now : Z) :
  list_sum (map (fun u => List.length (refreshTokens u)) db) =
  list_sum (map (valid_of verifyRefreshToken now) db)
  + list_sum (map (expired_of verifyRefreshToken now) db).
Proof.
  induction db as [|u db IH]; [reflexivity|simpl map; simpl list_sum].
  rewrite IH. unfold valid_of, expired_of.
  pose proof (kept_plus_dropped _ (still_verifies verifyRefreshToken now)
                (refreshTokens u)). lia.
Qed.

Lemma sum_zero (g : User -> nat) (db : DB) :
  list_sum (map g db) = 0 <-> forall u, In u db -> g u = 0.
Proof.
  induction db as [|u db IH]; simpl map; simpl list_sum.
  - split; [intros _ u []|reflexivity].
  - split.
    + intros H x [<-|Hx]; [lia|]. apply IH; [lia|assumption].
    + intros H. rewrite (H u (or_introl eq_refl)).
      apply IH. intros x Hx. apply H. now right.
Qed.

Lemma users_le_tokens (db : DB) :
  List.length (find_with_tokens db) <=
  list_sum (map (fun u => List.length (refreshTokens u)) db).
Proof.
  unfold find_with_tokens.
  induction db as [|u db IH]; simpl filter; simpl map; simpl list_sum; simpl List.length; [lia|].
  destruct (refreshTokens u); cbn [List.length]; lia.
Qed.

End Statistics.

(** X3: in the statistics, every counted token is either valid or expired
    (the total is the sum of the two and the number of all records in the
    collection), every counted user holds at least one token, and cleanup is
    reported as not needed exactly when every record of every user verifies. *)
Theorem cleanup_stats_consistent
    (verifyRefreshToken : Z -> string -> jwt_result) (db : DB) (now : Z) :
  let stats := getCleanupStats verifyRefreshToken db now in
  totalTokens stats = validTokens stats + expiredTokens stats
  /\ totalTokens stats =
     list_sum (map (fun u => List.length (refreshTokens u)) db)
  /\ totalUsers stats <= totalTokens stats
  /\ (cleanupNeeded stats = false <->
      forall u r, In u db -> In r (refreshTokens u) ->
        still_verifies verifyRefreshToken now r = true).
Proof.
  intros stats. unfold stats. rewrite getCleanupStats_sums.
  cbn [totalTokens validTokens expiredTokens totalUsers cleanupNeeded].
  split; [apply sum_split|]. split; [reflexivity|].
  split; [apply users_le_tokens|].
  rewrite Nat.ltb_ge, Nat.le_0_r, sum_zero. split.
  - intros H u r Hu Hr. specialize (H u Hu). unfold expired_of in H.
    now apply (none_dropped _ _ _ H).
  - intros H u Hu. unfold expired_of. apply dropped_none. intros r Hr.
    now apply (H u r).
Qed.

Section UniqueIds.

Variable verifyRefreshToken : Z -> string -> jwt_result.

Lemma in_ids (db : DB) (u : User) : In u db -> In (_id u) (map _id db).
Proof. apply in_map. Qed.

Lemma findById_unique (db : DB) (u : User) :
  NoDup (map _id db) -> In u db -> findById db (_id u) = Some u.
Proof.
  unfold findById. induction db as [|x db IH]; cbn [map find]; [intros _ []|].
  intros Hnd [->|Hin].
  - now rewrite N.eqb_refl.
  - inversion Hnd as [|? ? Hx Hnd']; subst.
    destruct (N.eqb_spec (_id x) (_id u)) as [E|_]; [|now apply IH].
    exfalso. apply Hx. rewrite E. now apply in_ids.
Qed.

Lemma without_expired_twice (now : Z) (u : User) :
  without_expired verifyRefreshToken now
    (without_expired verifyRefreshToken now u) =
  without_expired verifyRefreshToken now u.
Proof.
  unfold without_expired, set_refreshTokens. cbn. now rewrite filter_twice.
Qed.

Lemma without_expired_none (now : Z) (u : User) :
  expired_of verifyRefreshToken now u = 0 ->
  without_expired verifyRefreshToken now u = u.
Proof.
  unfold expired_of, without_expired. intros H.
  rewrite filter_all; [now destruct u|]. now apply none_dropped.
Qed.

Lemma cleanup_unique (db : DB) (now : Z) (u : User) :
  NoDup (map _id db) -> In u db ->
  cleanupUserRefreshTokens verifyRefreshToken db now (_id u) =
  (expired_of verifyRefreshToken now u,
   map (fun x => if N.eqb (_id x) (_id u)
                 then without_expired verifyRefreshToken now x else x) db).
Proof.
  intros Hnd Hin. unfold cleanupUserRefreshTokens.
  rewrite (findById_unique db u Hnd Hin), sweep_filter. fold (expired_of verifyRefreshToken now u).
  assert (Hsame : forall x, In x db -> N.eqb (_id x) (_id u) = true -> x = u).
  { intros x Hx E. apply N.eqb_eq in E.
    pose proof (findById_unique db x Hnd Hx) as H1. rewrite E in H1.
    rewrite (findById_unique db u Hnd Hin) in H1. congruence. }
  destruct (Nat.ltb_spec 0 (expired_of verifyRefreshToken now u)) as [Hpos|Hz].
  - f_equal. unfold save_refreshTokens. apply map_ext_in. intros x Hx.
    destruct (N.eqb (_id x) (_id u)) eqn:E; [|reflexivity].
    now rewrite (Hsame x Hx E).
  - f_equal. rewrite <- (map_id db) at 1. apply map_ext_in. intros x Hx.
    destruct (N.eqb (_id x) (_id u)) eqn:E; [|reflexivity].
    rewrite (Hsame x Hx E). symmetry. apply without_expired_none. lia.
Qed.

Lemma global_fold_unique (now : Z) (us : list User) :
  forall (t p : nat) (db : DB),
  NoDup (map _id db) -> NoDup (map _id us) -> (forall u, In u us -> In u db) ->
  fold_left (global_step verifyRefreshToken now) us (t, p, db) =
  (t + list_sum (map (expired_of verifyRefreshToken now) us),
   p + List.length us,
   map (fun x => if existsb (N.eqb (_id x)) (map _id us)
                 then without_expired verifyRefreshToken now x else x) db).
Proof.
  induction us as [|u us IH]; intros t p db Hdb Hus Hin; cbn [fold_left].
  - simpl. rewrite map_id. apply f_equal2; [apply f_equal2|]; auto; lia.
  - rewrite global_step_eq, (cleanup_unique db now u Hdb (Hin u (or_introl eq_refl))).
    cbn [fst snd]. inversion Hus as [|? ? Hu Hus']; subst.
    rewrite IH.
    + simpl map. simpl list_sum. simpl List.length.
      apply f_equal2; [apply f_equal2|]; try lia.
      rewrite map_map. apply map_ext. intros x. cbn [existsb].
      destruct (N.eqb (_id x) (_id u)); cbn [orb]; [|reflexivity].
      rewrite without_expired_twice.
      now destruct (existsb _ _).
    + rewrite map_map. erewrite map_ext; [exact Hdb|].
      intros x. now destruct (N.eqb (_id x) (_id u)).
    + exact Hus'.
    + intros x Hx. apply in_map_iff. exists x. split; [|apply Hin; now right].
      destruct (N.eqb_spec (_id x) (_id u)) as [E|_]; [|reflexivity].
      exfalso. apply Hu. rewrite <- E. now apply in_ids.
Qed.

Lemma NoDup_ids_filter (f : User -> bool) (db : DB) :
  NoDup (map _id db) -> NoDup (map _id (filter f db)).
Proof.
  induction db as [|u db IH]; cbn [map filter]; [auto|].
  intros H. inversion H as [|? ? Hu Hnd]; subst.
  destruct (f u); cbn [map]; [|auto].
  constructor; [|auto]. intros Hin. apply Hu.
  apply in_map_iff in Hin. destruct Hin as [x [Hx Hin]].
  apply filter_In in Hin. rewrite <- Hx. apply in_ids. tauto.
Qed.

Lemma cleanupAll_unique (db : DB) (now : Z) :
  NoDup (map _id db) ->
  cleanupAllExpiredTokens verifyRefreshToken db now =
  (mkCleanupTotals (list_sum (map (expired_of verifyRefreshToken now) db))
     (List.length (find_with_tokens db)),
   map (without_expired verifyRefreshToken now) db).
Proof.
  intros Hnd. unfold cleanupAllExpiredTokens.
  rewrite (global_fold_unique now (find_with_tokens db) 0 0 db Hnd).
  - cbn [Nat.add]. rewrite sum_over_find_with_tokens.
    + f_equal. apply map_ext_in. intros x Hx.
      destruct (existsb _ _) eqn:E; [reflexivity|].
      symmetry. apply without_expired_none.
      assert (Hnone : tokens_of db (_id x) = [])
        by (apply no_tokens_outside; exact E).
      unfold tokens_of in Hnone. rewrite (findById_unique db x Hnd Hx) in Hnone.
      unfold expired_of. now rewrite Hnone.
    + intros u Hu. unfold expired_of. now rewrite Hu.
  - now apply NoDup_ids_filter.
  - intros u Hu. apply filter_In in Hu. tauto.
Qed.

Lemma expired_of_without (now : Z) (u : User) :
  expired_of verifyRefreshToken now (without_expired verifyRefreshToken now u) = 0
  /\ valid_of verifyRefreshToken now (without_expired verifyRefreshToken now u) =
     valid_of verifyRefreshToken now u.
Proof.
  unfold expired_of, valid_of, without_expired. cbn [refreshTokens set_refreshTokens].
  split; [|now rewrite filter_twice].
  apply dropped_none. intros r Hr. apply filter_In in Hr. tauto.
Qed.

End UniqueIds.

(** X4: when no two users share an id, the global sweep returns as
    totalCleaned the number the statistics report as expired and as
    usersProcessed their totalUsers, and it leaves every user document as it
    was but for the records whose token fails verification. *)
Theorem global_sweep_matches_stats
    (verifyRefreshToken : Z -> string -> jwt_result) (db : DB) (now : Z) :
  NoDup (map _id db) ->
  cleanupAllExpiredTokens verifyRefreshToken db now =
  (mkCleanupTotals
     (expiredTokens (getCleanupStats verifyRefreshToken db now))
     (totalUsers (getCleanupStats verifyRefreshToken db now)),
   map (without_expired verifyRefreshToken now) db).
Proof.
  intros Hnd. rewrite (cleanupAll_unique verifyRefreshToken db now Hnd).
  now rewrite getCleanupStats_sums.
Qed.

Lemma global_sweep_matches_stats_witness :
  NoDup (map _id Demo.users)
  /\ cleanupAllExpiredTokens Demo.verifyRefreshToken Demo.users 0 =
     (mkCleanupTotals 1 2,
      [set_refreshTokens Demo.alice [mkRefreshTokenRecord "rt.1" 5000];
       Demo.bob]).
Proof.
  assert (H : NoDup (map _id Demo.users)).
  { repeat constructor; cbn; intuition discriminate. }
  split; [exact H|].
  rewrite (global_sweep_matches_stats Demo.verifyRefreshToken Demo.users 0 H).
  reflexivity.
Defined.

(** X5: when no two users share an id, a global sweep leaves nothing for the
    next one: the statistics taken right after it count no expired token,
    report that no cleanup is needed and count as many valid tokens as
    before, and a second global sweep returns zero and changes nothing. *)
Theorem global_sweep_settles
    (verifyRefreshToken : Z -> string -> jwt_result) (db : DB) (now : Z) :
  NoDup (map _id db) ->
  let db' := snd (cleanupAllExpiredTokens verifyRefreshToken db now) in
  let before := getCleanupStats verifyRefreshToken db now in
  let after := getCleanupStats verifyRefreshToken db' now in
  expiredTokens after = 0
  /\ cleanupNeeded after = false
  /\ validTokens after = validTokens before
  /\ totalTokens after = validTokens before
  /\ totalCleaned (fst (cleanupAllExpiredTokens verifyRefreshToken db' now)) = 0
  /\ snd (cleanupAllExpiredTokens verifyRefreshToken db' now) = db'.
Proof.
  intros Hnd db' before after.
  assert (Hdb' : db' = map (without_expired verifyRefreshToken now) db)
    by (unfold db'; now rewrite (cleanupAll_unique verifyRefreshToken db now Hnd)).
  assert (Hnd' : NoDup (map _id db'))
    by (rewrite Hdb', map_map; exact Hnd).
  assert (He : list_sum (map (expired_of verifyRefreshToken now) db') = 0).
  { apply sum_zero. intros u Hu. rewrite Hdb' in Hu.
    apply in_map_iff in Hu. destruct Hu as [x [<- _]].
    apply expired_of_without. }
  assert (Hv : list_sum (map (valid_of verifyRefreshToken now) db') =
               list_sum (map (valid_of verifyRefreshToken now) db)).
  { rewrite Hdb', map_map. f_equal. apply map_ext. intros u.
    apply expired_of_without. }
  unfold after, before. rewrite !getCleanupStats_sums.
  cbn [expiredTokens cleanupNeeded validTokens totalTokens].
  rewrite (sum_split verifyRefreshToken db' now), He, Hv.
  rewrite (cleanupAll_unique verifyRefreshToken db' now Hnd').
  cbn [fst snd totalCleaned]. rewrite He.
  repeat split; try lia.
  rewrite Hdb', map_map. apply map_ext. intros u.
  apply without_expired_twice.
Qed.

Lemma global_sweep_settles_witness :
  NoDup (map _id Demo.users)
  /\ expiredTokens (getCleanupStats Demo.verifyRefreshToken Demo.users 0) = 1
  /\ expiredTokens
       (getCleanupStats Demo.verifyRefreshToken
          (snd (cleanupAllExpiredTokens Demo.verifyRefreshToken Demo.users 0))
          0) = 0.
Proof.
  assert (H : NoDup (map _id Demo.users)).
  { repeat constructor; cbn; intuition discriminate. }
  split; [exact H|]. split; [reflexivity|].
  apply (global_sweep_settles Demo.verifyRefreshToken Demo.users 0 H).
Defined.

(** What the periodic cleanup leaves of a list. *)
Lemma periodic_cleanup_tokens
    (verifyRefreshToken : Z -> string -> jwt_result)
    (LocalTZA : Z -> bool -> Z)
    (db : DB) (now : Z) (id : ObjectId) (r : RefreshTokenRecord) (cutoff : Z) :
  cutoffDate LocalTZA now 30 = Some cutoff ->
  In r (tokens_of (periodic_cleanup verifyRefreshToken LocalTZA db now) id) <->
  In r (tokens_of db id)
  /\ still_verifies verifyRefreshToken now r = true
  /\ (cutoff <= createdAt r)%Z.
Proof.
  intros Hc. unfold periodic_cleanup.
  pose proof (global_sweep_tokens verifyRefreshToken db now) as [Hg _].
  destruct (cleanupAllExpiredTokens verifyRefreshToken db now) as [totals db1].
  cbn [snd] in Hg.
  pose proof (cleanupOldTokens_tokens LocalTZA db1 now (Some 30%Z) cutoff id Hc)
    as Ho.
  destruct (cleanupOldTokens LocalTZA db1 now (Some 30%Z)) as [n db2].
  cbn [snd] in Ho. rewrite Ho, Hg.
  rewrite !filter_In. unfold older_than.
  rewrite negb_true_iff, Z.ltb_ge. tauto.
Qed.

(** X6: what the periodic cleanup leaves of a user's list is exactly the
    records that were there, whose token verifies, and that were created at
    or after the cutoff of the age-based sweep of thirty days, when that
    cutoff is a date. *)
Theorem periodic_cleanup_result
    (verifyRefreshToken : Z -> string -> jwt_result)
    (LocalTZA : Z -> bool -> Z)
    (db : DB) (now : Z) (id : ObjectId) (r : RefreshTokenRecord) (cutoff : Z) :
  cutoffDate LocalTZA now 30 = Some cutoff ->
  In r (tokens_of (periodic_cleanup verifyRefreshToken LocalTZA db now) id) <->
  In r (tokens_of db id)
  /\ still_verifies verifyRefreshToken now r = true
  /\ (cutoff <= createdAt r)%Z.
Proof.
  exact (periodic_cleanup_tokens verifyRefreshToken LocalTZA db now id r cutoff).
Qed.

Lemma periodic_cleanup_result_witness :
  cutoffDate Demo.newYork Demo.noon 30 =
    Some (Demo.noon - 30 * 86400000 - 3600000)%Z
  /\ In (mkRefreshTokenRecord "rt.1" (Demo.noon - 30 * 86400000 - 1800000))
       (tokens_of
          (periodic_cleanup Demo.verifyRefreshToken Demo.newYork Demo.autumn
             Demo.noon) 1%N).
Proof.
  split; [vm_compute; reflexivity|].
  apply (periodic_cleanup_result Demo.verifyRefreshToken Demo.newYork
           Demo.autumn Demo.noon 1%N
           (mkRefreshTokenRecord "rt.1" (Demo.noon - 30 * 86400000 - 1800000))
           (Demo.noon - 30 * 86400000 - 3600000)%Z).
  - vm_compute. reflexivity.
  - split; [left; reflexivity|]. split; [reflexivity|].
    vm_compute. discriminate.
Defined.

Lemma filter_none (A : Type) (f : A -> bool) (l : list A) :
  (forall x, In x l -> f x = false) -> filter f l = [].
Proof.
  induction l as [|x l IH]; cbn [filter]; intros H; [reflexivity|].
  rewrite (H x (or_introl eq_refl)). apply IH. intros y Hy. apply H. now right.
Qed.

(** X7: an age-based sweep leaves nothing for a later one whose cutoff is not
    later than its own: that one modifies no user and leaves the collection
    as it is.  So does a later one whose cutoff is no date. *)
Theorem age_sweep_settles
    (LocalTZA : Z -> bool -> Z)
    (db : DB) (now now' : Z) (olderThanDays olderThanDays' : option Z) :
  let days := fun o : option Z => match o with Some d => d | None => 30%Z end in
  match cutoffDate LocalTZA now' (days olderThanDays') with
  | None => True
  | Some later =>
      exists first,
        cutoffDate LocalTZA now (days olderThanDays) = Some first
        /\ (later <= first)%Z
  end ->
  cleanupOldTokens LocalTZA
    (snd (cleanupOldTokens LocalTZA db now olderThanDays)) now' olderThanDays' =
  (0, snd (cleanupOldTokens LocalTZA db now olderThanDays)).
Proof.
  intros days Hle.
  destruct (cutoffDate LocalTZA now' (days olderThanDays')) as [c'|] eqn:Hc';
    [|now apply cleanupOldTokens_invalid].
  destruct Hle as [c [Hc Hle]].
  rewrite (cleanupOldTokens_at LocalTZA db now olderThanDays c Hc). cbn [snd].
  rewrite (cleanupOldTokens_at LocalTZA _ now' olderThanDays' c' Hc').
  assert (Hnone : forall u,
            In u (map (fun u =>
                         if existsb (older_than c) (refreshTokens u)
                         then set_refreshTokens u
                                (filter (fun r => negb (older_than c r))
                                   (refreshTokens u))
                         else u) db) ->
            existsb (older_than c') (refreshTokens u) = false).
  { intros u Hu.
    apply in_map_iff in Hu. destruct Hu as [x [<- _]].
    apply not_true_is_false. intros E. apply existsb_exists in E.
    destruct E as [r [Hr Hold]]. unfold older_than in Hold.
    apply Z.ltb_lt in Hold.
    destruct (existsb (older_than c) (refreshTokens x)) eqn:Ex.
    - cbn [refreshTokens set_refreshTokens] in Hr. apply filter_In in Hr.
      destruct Hr as [_ Hk]. unfold older_than in Hk.
      apply negb_true_iff, Z.ltb_ge in Hk. lia.
    - assert (Hex : existsb (older_than c) (refreshTokens x) = true).
      { apply existsb_exists. exists r. split; [assumption|].
        unfold older_than. apply Z.ltb_lt. lia. }
      congruence. }
  f_equal.
  - rewrite filter_none; [reflexivity|]. intros u Hu. now apply Hnone.
  - rewrite <- map_id. apply map_ext_in. intros u Hu. now rewrite (Hnone u Hu).
Qed.

Lemma age_sweep_settles_witness :
  cutoffDate Demo.utc 2592001000 30 = Some 1000%Z
  /\ fst (cleanupOldTokens Demo.utc Demo.users 2592001000 None) = 1
  /\ cleanupOldTokens Demo.utc
       (snd (cleanupOldTokens Demo.utc Demo.users 2592001000 None))
       2592001000 (Some 30%Z) =
     (0, snd (cleanupOldTokens Demo.utc Demo.users 2592001000 None)).
Proof.
  split; [reflexivity|]. split; [reflexivity|].
  pose proof (age_sweep_settles Demo.utc Demo.users 2592001000 2592001000 None
                (Some 30%Z)) as H.
  cbv zeta in H. apply H.
  exists 1000%Z. split; [reflexivity|apply Z.le_refl].
Defined.

(** ** Presenting the access token *)

Lemma substring_all (s : string) : substring 0 (String.length s) s = s.
Proof. induction s as [|c s IH]; cbn; [reflexivity|now rewrite IH]. Qed.

Lemma prefix_split (p h : string) :
  prefix p h = true ->
  h = (p ++ substring (String.length p) (String.length h - String.length p) h)%string.
Proof.
  revert h. induction p as [|c p IH]; intros h H.
  - cbn. now rewrite Nat.sub_0_r, substring_all.
  - destruct h as [|c' h]; [discriminate|]. cbn in H.
    destruct (Ascii.ascii_dec c c') as [->|]; [|discriminate].
    cbn. f_equal. now apply IH.
Qed.

Lemma prefix_append (p t : string) : prefix p (p ++ t)%string = true.
Proof.
  induction p as [|c p IH]; cbn; [now destruct t|].
  destruct (Ascii.ascii_dec c c); [exact IH|contradiction].
Qed.

Lemma substring_append (p t : string) :
  substring (String.length p) (String.length (p ++ t)%string - String.length p)
    (p ++ t)%string = t.
Proof.
  induction p as [|c p IH]; cbn.
  - rewrite Nat.sub_0_r. apply substring_all.
  - exact IH.
Qed.

Lemma bearer_of_header (t : string) :
  bearer (Some ("Bearer " ++ t)%string) = Some t.
Proof.
  unfold bearer.
  rewrite (prefix_append "Bearer " t). cbn [negb orb String.eqb append].
  cbn [Ascii.eqb Bool.eqb]. f_equal.
  exact (substring_append "Bearer " t).
Qed.

(** X8: the guard reads the token [t] off the Authorization header exactly
    when the header is the text "Bearer " followed by [t]. *)
Theorem bearer_roundtrip (authHeader : option string) (t : string) :
  bearer authHeader = Some t <-> authHeader = Some ("Bearer " ++ t)%string.
Proof.
  split.
  - unfold bearer. destruct authHeader as [h|]; [|discriminate].
    destruct (h =? ""); cbn [orb]; [discriminate|].
    destruct (prefix "Bearer " h) eqn:Hp; cbn [negb]; [|discriminate].
    intros H. injection H as <-. f_equal. exact (prefix_split "Bearer " h Hp).
  - intros ->. apply bearer_of_header.
Qed.

(** X9: a non-empty access token is treated alike in the query string of
    /auth/me-query and as bearer token at the guard: the route answers 200
    with a profile exactly when the guard lets the request through with that
    profile, and when the guard denies, the route answers with the same
    status. *)
Theorem query_token_as_bearer
    (verifyAccessToken : Z -> string -> jwt_result)
    (db : DB) (now : Z) (t : string) :
  t <> "" ->
  let reply := me_query verifyAccessToken db now (Some t) in
  let decision := auth verifyAccessToken db now (Some ("Bearer " ++ t)%string) in
  (forall user,
     reply = mkReply 200 true None (Some user) <-> decision = Granted user)
  /\ (forall res,
     decision = Denied res ->
     reply_status reply = status res /\ reply_success reply = false
     /\ reply_data reply = None).
Proof.
  intros Hne reply decision. unfold reply, decision, me_query, auth.
  rewrite bearer_of_header. apply String.eqb_neq in Hne.
  cbn [truthy text]. rewrite Hne. cbn [negb].
  destruct (verifyAccessToken now t) as [id|n].
  - destruct (findById db id) as [u|].
    + split.
      * intros user. split; intros H; injection H as <-; reflexivity.
      * intros res H. discriminate.
    + split.
      * intros user. split; intros H; discriminate.
      * intros res H. injection H as <-. repeat split.
  - destruct (n =? "JsonWebTokenError");
      [|destruct (n =? "TokenExpiredError")];
      (split;
       [intros user; split; intros H; discriminate
       |intros res H; injection H as <-; repeat split]).
Qed.

Lemma query_token_as_bearer_witness :
  me_query Demo.verifyAccessToken Demo.users 0 (Some "at.2") =
    mkReply 200 true None (Some (select_profile Demo.bob))
  /\ reply_status (me_query Demo.verifyAccessToken Demo.users 0 (Some "at.3")) =
     401.
Proof.
  split.
  - apply (proj1 (query_token_as_bearer Demo.verifyAccessToken Demo.users 0
                    "at.2" ltac:(discriminate))).
    reflexivity.
  - apply (proj2 (query_token_as_bearer Demo.verifyAccessToken Demo.users 0
                    "at.3" ltac:(discriminate))
             (failure 401 "Invalid token. User not found.")).
    reflexivity.
Defined.

(** ** The token routes *)

Section TokenRoutes.

Variable verifyRefreshToken : Z -> string -> jwt_result.
Variable idToString : ObjectId -> string.
Variable castObjectId : string -> option ObjectId.
Variable LocalTZA : Z -> bool -> Z.

Lemma not_admin (req_user : UserView) :
  view_role req_user <> "admin" -> (view_role req_user =? "admin") = false.
Proof. intros H. now apply String.eqb_neq. Qed.

Lemma findById_some_id (db : DB) (id : ObjectId) (u : User) :
  findById db id = Some u -> _id u = id.
Proof.
  unfold findById. intros H. apply find_some in H.
  destruct H as [_ H]. now apply N.eqb_eq in H.
Qed.

Lemma cleanup_tokens_self (db : DB) (now : Z) (req_user : UserView)
    (userId scope : option string) :
  view_role req_user <> "admin" ->
  cleanup_tokens verifyRefreshToken castObjectId LocalTZA db now req_user userId scope =
  (mkReply 200 true (Some "Token cleanup completed")
     (Some (SelfScope (view_id req_user)
              (fst (cleanupUserRefreshTokens verifyRefreshToken db now
                      (view_id req_user))))),
   snd (cleanupUserRefreshTokens verifyRefreshToken db now (view_id req_user))).
Proof.
  intros H. unfold cleanup_tokens. rewrite (not_admin req_user H).
  rewrite !andb_false_r.
  now destruct (cleanupUserRefreshTokens verifyRefreshToken db now
                  (view_id req_user)).
Qed.

End TokenRoutes.

(** X10: whatever userId and scope a caller who is not an admin puts in the
    body of /auth/cleanup-tokens, the route sweeps the caller's own list and
    nothing else: the answer has scope self and the count of that sweep, and
    no other user's list changes. *)
Theorem cleanup_tokens_only_self
    (verifyRefreshToken : Z -> string -> jwt_result)
    (castObjectId : string -> option ObjectId)
    (LocalTZA : Z -> bool -> Z)
    (db : DB) (now : Z) (req_user : UserView) (userId scope : option string) :
  view_role req_user <> "admin" ->
  let answer :=
    cleanup_tokens verifyRefreshToken castObjectId LocalTZA db now req_user userId
      scope in
  reply_data (fst answer) =
    Some (SelfScope (view_id req_user)
            (fst (cleanupUserRefreshTokens verifyRefreshToken db now
                    (view_id req_user))))
  /\ tokens_of (snd answer) (view_id req_user) =
     filter (still_verifies verifyRefreshToken now)
       (tokens_of db (view_id req_user))
  /\ (forall other, other <> view_id req_user ->
        tokens_of (snd answer) other = tokens_of db other).
Proof.
  intros H answer. unfold answer.
  rewrite (cleanup_tokens_self verifyRefreshToken castObjectId LocalTZA db now req_user
             userId scope H).
  cbn [fst snd reply_data]. split; [reflexivity|].
  split; [apply cleanup_run|].
  intros other Ho. now apply tokens_of_cleanup_other.
Qed.

Lemma cleanup_tokens_only_self_witness :
  view_role (select_profile Demo.alice) <> "admin"
  /\ reply_data
       (fst (cleanup_tokens Demo.verifyRefreshToken DemoAdmin.castObjectId
               Demo.utc Demo.users 0 (select_profile Demo.alice) (Some "id2")
               (Some "all"))) =
     Some (SelfScope 1 1)
  /\ tokens_of
       (snd (cleanup_tokens Demo.verifyRefreshToken DemoAdmin.castObjectId
               Demo.utc Demo.users 0 (select_profile Demo.alice) (Some "id2")
               (Some "all"))) 2 =
     tokens_of Demo.users 2.
Proof.
  split; [discriminate|].
  pose proof (cleanup_tokens_only_self Demo.verifyRefreshToken
                DemoAdmin.castObjectId Demo.utc Demo.users 0 (select_profile Demo.alice)
                (Some "id2") (Some "all") ltac:(discriminate)) as H.
  cbv zeta in H. destruct H as [Hd [_ Ho]].
  split; [rewrite Hd; reflexivity|apply Ho; discriminate].
Defined.

(** X11: for an admin who asks for scope all, /auth/cleanup-tokens runs the
    global sweep and then the age-based sweep of thirty days, as the
    scheduler does: it leaves the collection as the periodic cleanup would,
    that is, of every list the records whose token verifies and that were
    created at or after the cutoff of the age-based sweep, when that cutoff
    is a date; and it reports the number of users that held a record and the
    number of tokens the global sweep removed. *)
Theorem cleanup_tokens_all_is_periodic
    (verifyRefreshToken : Z -> string -> jwt_result)
    (castObjectId : string -> option ObjectId)
    (LocalTZA : Z -> bool -> Z)
    (db : DB) (now : Z) (req_user : UserView) (userId : option string) :
  view_role req_user = "admin" ->
  let answer :=
    cleanup_tokens verifyRefreshToken castObjectId LocalTZA db now req_user
      userId (Some "all") in
  snd answer = periodic_cleanup verifyRefreshToken LocalTZA db now
  /\ (forall cutoff id r,
        cutoffDate LocalTZA now 30 = Some cutoff ->
        In r (tokens_of (snd answer) id) <->
        In r (tokens_of db id)
        /\ still_verifies verifyRefreshToken now r = true
        /\ (cutoff <= createdAt r)%Z)
  /\ exists cleaned old,
       reply_data (fst answer) =
       Some (GlobalScope cleaned (List.length (find_with_tokens db)) old)
       /\ cleaned =
          totalCleaned (fst (cleanupAllExpiredTokens verifyRefreshToken db now)).
Proof.
  intros H answer.
  assert (Hsnd : snd answer =
                 periodic_cleanup verifyRefreshToken LocalTZA db now).
  { unfold answer, cleanup_tokens, periodic_cleanup.
    rewrite H. cbn [is_literal String.eqb Ascii.eqb Bool.eqb andb].
    destruct (cleanupAllExpiredTokens verifyRefreshToken db now) as [g db1].
    now destruct (cleanupOldTokens LocalTZA db1 now (Some 30%Z)) as [n db2]. }
  split; [exact Hsnd|]. split.
  - intros cutoff id r Hc. rewrite Hsnd. now apply periodic_cleanup_tokens.
  - unfold answer, cleanup_tokens.
    rewrite H. cbn [is_literal String.eqb Ascii.eqb Bool.eqb andb].
    pose proof (global_sweep_tokens verifyRefreshToken db now) as [_ Hp].
    destruct (cleanupAllExpiredTokens verifyRefreshToken db now) as [g db1].
    destruct (cleanupOldTokens LocalTZA db1 now (Some 30%Z)) as [n db2].
    cbn [fst snd reply_data] in *. rewrite Hp.
    exists (totalCleaned g), n. split; reflexivity.
Qed.

Lemma cleanup_tokens_all_is_periodic_witness :
  view_role (select_profile Demo.bob) = "admin"
  /\ snd (cleanup_tokens Demo.verifyRefreshToken DemoAdmin.castObjectId
            Demo.utc Demo.users 2592006000 (select_profile Demo.bob) None
            (Some "all")) =
     [set_refreshTokens Demo.alice []; Demo.bob].
Proof.
  split; [reflexivity|].
  pose proof (cleanup_tokens_all_is_periodic Demo.verifyRefreshToken
                DemoAdmin.castObjectId Demo.utc Demo.users 2592006000
                (select_profile Demo.bob) None eq_refl) as H.
  cbv zeta in H. destruct H as [Hs _]. rewrite Hs. vm_compute. reflexivity.
Defined.

(** X12: the statistics that /auth/token-stats gives a caller who is not an
    admin are those of the caller's own list: the total is its length, the
    expired count is the number that a sweep of the caller's list at that
    time would return, the valid count is the number of records that sweep
    would leave, the two add up to the total, and cleanup is needed exactly
    when the expired count is not zero. *)
Theorem token_stats_self
    (verifyRefreshToken : Z -> string -> jwt_result)
    (db : DB) (now : Z) (req_user : UserView) (user : User) :
  view_role req_user <> "admin" ->
  findById db (view_id req_user) = Some user ->
  let run :=
    cleanupUserRefreshTokens verifyRefreshToken db now (view_id req_user) in
  let valid := List.length (tokens_of (snd run) (view_id req_user)) in
  token_stats verifyRefreshToken db now req_user =
    mkReply 200 true None
      (Some (SelfStats (view_id req_user) (List.length (refreshTokens user))
               valid (fst run) (0 <? fst run)%nat))
  /\ List.length (refreshTokens user) = valid + fst run.
Proof.
  intros Hrole Hu run valid. unfold valid, run.
  destruct (cleanup_run verifyRefreshToken db now (view_id req_user)) as [Hn Hl].
  rewrite Hn, Hl. unfold tokens_of. rewrite Hu.
  split; [|symmetry; apply kept_plus_dropped].
  unfold token_stats. rewrite (not_admin req_user Hrole), Hu.
  now rewrite stats_token_fold.
Qed.

Lemma token_stats_self_witness :
  token_stats Demo.verifyRefreshToken Demo.users 0 (select_profile Demo.alice) =
  mkReply 200 true None (Some (SelfStats 1 2 1 1 true)).
Proof.
  pose proof (token_stats_self Demo.verifyRefreshToken Demo.users 0
                (select_profile Demo.alice) Demo.alice ltac:(discriminate)
                eq_refl) as H.
  cbv zeta in H. destruct H as [Hr _]. rewrite Hr. reflexivity.
Defined.

Lemma tokens_of_save_at (db : DB) (id id' : ObjectId)
    (l : list RefreshTokenRecord) :
  id' <> id -> tokens_of (save_refreshTokens db id l) id' = tokens_of db id'.
Proof.
  intros H. unfold tokens_of. rewrite findById_save.
  apply N.eqb_neq in H. now rewrite H.
Qed.

Lemma tokens_of_emptied (db : DB) (id : ObjectId) :
  tokens_of (save_refreshTokens db id []) id = [].
Proof.
  unfold tokens_of. rewrite findById_save, N.eqb_refl.
  now destruct (findById db id).
Qed.

(** X13: /auth/clear-tokens changes the collection only when it answers
    success; then it has emptied the list of one existing user, the target,
    reports as tokensCleared the length that list had, and has left every
    other user's list alone. *)
Theorem clear_tokens_effect
    (idToString : ObjectId -> string)
    (castObjectId : string -> option ObjectId)
    (db : DB) (req_user : UserView) (userId : option string) :
  let answer := clear_tokens idToString castObjectId db req_user userId in
  (reply_success (fst answer) = false -> snd answer = db)
  /\ (reply_success (fst answer) = true ->
      exists target user,
        (if truthy userId then castObjectId (text userId)
         else Some (view_id req_user)) = Some target
        /\ findById db target = Some user
        /\ reply_status (fst answer) = 200
        /\ reply_data (fst answer) =
           Some (mkClearedTokens
                   (if truthy userId then text userId
                    else idToString (view_id req_user))
                   (List.length (refreshTokens user)))
        /\ tokens_of (snd answer) target = []
        /\ (forall other, other <> target ->
              tokens_of (snd answer) other = tokens_of db other)).
Proof.
  intros answer. unfold answer, clear_tokens.
  destruct (truthy userId && negb (view_role req_user =? "admin")
            && negb (text userId =? idToString (view_id req_user)));
    [split; [reflexivity|discriminate]|].
  destruct (if truthy userId then castObjectId (text userId)
            else Some (view_id req_user)) as [target|];
    [|split; [reflexivity|discriminate]].
  destruct (findById db target) as [user|] eqn:Hu;
    [|split; [reflexivity|discriminate]].
  cbn [fst snd reply_success reply_status reply_data].
  split; [discriminate|]. intros _.
  exists target, user. split; [reflexivity|].
  split; [exact Hu|]. split; [reflexivity|]. split; [reflexivity|].
  split; [apply tokens_of_emptied|].
  intros other Ho. now apply tokens_of_save_at.
Qed.

Lemma clear_tokens_effect_witness :
  clear_tokens DemoAdmin.idToString DemoAdmin.castObjectId Demo.users
    (select_profile Demo.bob) (Some "id1") =
  (mkReply 200 true (Some "Cleared 2 refresh tokens")
     (Some (mkClearedTokens "id1" 2)),
   [set_refreshTokens Demo.alice []; Demo.bob])
  /\ tokens_of
       (snd (clear_tokens DemoAdmin.idToString DemoAdmin.castObjectId
               Demo.users (select_profile Demo.bob) (Some "id1"))) 1 = [].
Proof.
  split; [vm_compute; reflexivity|].
  destruct (proj2 (clear_tokens_effect DemoAdmin.idToString
                     DemoAdmin.castObjectId Demo.users
                     (select_profile Demo.bob) (Some "id1")) eq_refl)
    as [target [user [Ht [_ [_ [_ [He _]]]]]]].
  injection Ht as <-. exact He.
Defined.

(** X14: a caller who is not an admin cannot clear anybody else's tokens
    through /auth/clear-tokens: a userId that is not the caller's own id as
    text is answered 403 with the collection untouched, and whatever the body
    says, no other user's list changes. *)
Theorem clear_tokens_only_own
    (idToString : ObjectId -> string)
    (castObjectId : string -> option ObjectId)
    (db : DB) (req_user : UserView) (userId : option string) :
  view_role req_user <> "admin" ->
  castObjectId (idToString (view_id req_user)) = Some (view_id req_user) ->
  let answer := clear_tokens idToString castObjectId db req_user userId in
  (truthy userId = true ->
   text userId <> idToString (view_id req_user) ->
   answer = (refuse 403 "Not authorized to clear other user's tokens", db))
  /\ (forall other, other <> view_id req_user ->
        tokens_of (snd answer) other = tokens_of db other).
Proof.
  intros Hrole Hcast answer. unfold answer, clear_tokens.
  rewrite (not_admin req_user Hrole). cbn [negb]. rewrite andb_true_r.
  split.
  - intros Ht Hne. apply String.eqb_neq in Hne. now rewrite Ht, Hne.
  - intros other Ho.
    destruct (truthy userId) eqn:Ht; cbn [andb].
    + destruct (text userId =? idToString (view_id req_user)) eqn:E;
        cbn [negb]; [|reflexivity].
      apply String.eqb_eq in E. rewrite E, Hcast.
      destruct (findById db (view_id req_user)); [|reflexivity].
      cbn [snd]. now apply tokens_of_save_at.
    + destruct (findById db (view_id req_user)); [|reflexivity].
      cbn [snd]. now apply tokens_of_save_at.
Qed.

Lemma clear_tokens_only_own_witness :
  view_role (select_profile Demo.alice) <> "admin"
  /\ DemoAdmin.castObjectId (DemoAdmin.idToString 1) = Some 1%N
  /\ clear_tokens DemoAdmin.idToString DemoAdmin.castObjectId Demo.users
       (select_profile Demo.alice) (Some "id2") =
     (refuse 403 "Not authorized to clear other user's tokens", Demo.users).
Proof.
  split; [discriminate|]. split; [reflexivity|].
  apply (clear_tokens_only_own DemoAdmin.idToString DemoAdmin.castObjectId
           Demo.users (select_profile Demo.alice) (Some "id2")
           ltac:(discriminate) eq_refl); [reflexivity|discriminate].
Defined.

(** ** The token listing *)

Lemma prefix_substring (n : nat) (s : string) :
  prefix (substring 0 n s) s = true
  /\ String.length (substring 0 n s) <= n.
Proof.
  revert n. induction s as [|c s IH]; intros [|n]; cbn; try (split; [reflexivity|lia]).
  destruct (IH n) as [Hp Hl].
  destruct (Ascii.ascii_dec c c); [|contradiction]. split; [exact Hp|lia].
Qed.

(** X15: /auth/tokens lists one entry per record of the caller, in order,
    and an entry shows of its token no more than the first twenty
    characters, followed by three dots. *)
Theorem token_listing_previews
    (db : DB) (req_user : UserView) (user : User) :
  findById db (view_id req_user) = Some user ->
  exists listing,
    list_tokens db req_user = mkReply 200 true None (Some listing)
    /\ totalRefreshTokens listing = List.length (refreshTokens user)
    /\ map fst (listing_tokens listing) = map createdAt (refreshTokens user)
    /\ Forall2
         (fun r entry =>
            exists shown,
              snd entry = (shown ++ "...")%string
              /\ prefix shown (token r) = true
              /\ String.length shown <= 20)
         (refreshTokens user) (listing_tokens listing).
Proof.
  intros Hu. unfold list_tokens. rewrite Hu. eexists. split; [reflexivity|].
  cbn [totalRefreshTokens listing_tokens]. split; [reflexivity|].
  split.
  - rewrite map_map. reflexivity.
  - induction (refreshTokens user) as [|r l IH]; cbn [map]; constructor.
    + exists (substring 0 20 (token r)). split; [reflexivity|].
      apply prefix_substring.
    + exact IH.
Qed.

Example token_listing_run :
  list_tokens
    [mkUser 1 "Alice" "a@x.com" "hash:secret1" "user"
       [mkRefreshTokenRecord "eyJhbGciOiJIUzI1NiIsInR5cCI6IkpXVCJ9.e30.sig" 7]]
    (mkUserView 1 "Alice" "a@x.com" "user" None None) =
  mkReply 200 true None
    (Some (mkTokenListing 1 1 [(7%Z, "eyJhbGciOiJIUzI1NiIs...")])).
Proof. reflexivity. Qed.

Lemma token_listing_previews_witness :
  exists listing,
    list_tokens Demo.users (select_profile Demo.bob) =
    mkReply 200 true None (Some listing)
    /\ totalRefreshTokens listing = 1
    /\ map fst (listing_tokens listing) = [6000%Z].
Proof.
  destruct (token_listing_previews Demo.users (select_profile Demo.bob)
              Demo.bob eq_refl) as [listing [Hl [Ht [Hc _]]]].
  exists listing. split; [exact Hl|]. split; [exact Ht|exact Hc].
Defined.

(** ** User management *)

(** X16: through GET /users/:id a caller who is not an admin gets 403 for
    every id that is not the caller's own id as text, and a profile the route
    returns to such a caller is the caller's own; no profile the route
    returns, to anybody, has a password or a record list. *)
Theorem get_user_access
    (idToString : ObjectId -> string)
    (castObjectId : string -> option ObjectId)
    (db : DB) (req_user : UserView) (id : string) :
  castObjectId (idToString (view_id req_user)) = Some (view_id req_user) ->
  let reply := get_user idToString castObjectId db req_user id in
  (view_role req_user <> "admin" -> id <> idToString (view_id req_user) ->
   reply = refuse 403 "Access denied")
  /\ (forall user, reply_data reply = Some user ->
        view_password user = None /\ view_refreshTokens user = None
        /\ (view_role req_user <> "admin" -> view_id user = view_id req_user)
        /\ exists stored target,
             castObjectId id = Some target
             /\ findById db target = Some stored
             /\ user = select_profile stored).
Proof.
  intros Hcast reply. unfold reply, get_user. split.
  - intros Hrole Hne. rewrite (not_admin req_user Hrole). cbn [negb andb].
    assert (E : (idToString (view_id req_user) =? id) = false)
      by (apply String.eqb_neq; congruence).
    now rewrite E.
  - intros user.
    destruct (negb (view_role req_user =? "admin")
              && negb (idToString (view_id req_user) =? id)) eqn:Hgate;
      [discriminate|].
    destruct (castObjectId id) as [target|] eqn:Ht; [|discriminate].
    destruct (findById db target) as [stored|] eqn:Hs; [|discriminate].
    cbn [reply_data]. intros H. injection H as <-.
    split; [reflexivity|]. split; [reflexivity|]. split.
    + intros Hrole. rewrite (not_admin req_user Hrole) in Hgate.
      cbn [negb andb] in Hgate. apply negb_false_iff, String.eqb_eq in Hgate.
      rewrite <- Hgate, Hcast in Ht. injection Ht as Ht. subst target.
      cbn [view_id select_profile]. exact (findById_some_id db _ _ Hs).
    + exists stored, target. auto.
Qed.

Lemma get_user_access_witness :
  DemoAdmin.castObjectId (DemoAdmin.idToString 1) = Some 1%N
  /\ get_user DemoAdmin.idToString DemoAdmin.castObjectId Demo.users
       (select_profile Demo.alice) "id2" = refuse 403 "Access denied"
  /\ get_user DemoAdmin.idToString DemoAdmin.castObjectId Demo.users
       (select_profile Demo.alice) "id1" =
     mkReply 200 true None (Some (select_profile Demo.alice)).
Proof.
  split; [reflexivity|]. split; [|reflexivity].
  apply (get_user_access DemoAdmin.idToString DemoAdmin.castObjectId
           Demo.users (select_profile Demo.alice) "id2" eq_refl);
    discriminate.
Defined.

Lemma findById_absent (db : DB) (id : ObjectId) :
  ~ In id (map _id db) -> findById db id = None.
Proof.
  unfold findById. induction db as [|u db IH]; cbn [map find]; [reflexivity|].
  intros H. destruct (N.eqb_spec (_id u) id) as [E|_].
  - exfalso. apply H. now left.
  - apply IH. intros Hin. apply H. now right.
Qed.

Lemma findById_delete (db : DB) (id id' : ObjectId) :
  NoDup (map _id db) ->
  findById (delete_by_id db id) id' =
  if N.eqb id' id then None else findById db id'.
Proof.
  induction db as [|u db IH]; cbn [map delete_by_id]; intros Hnd.
  - now destruct (N.eqb id' id).
  - inversion Hnd as [|x l Hu Hnd' [Hx Hl]].
    destruct (N.eqb (_id u) id) eqn:E.
    + apply N.eqb_eq in E. destruct (N.eqb id' id) eqn:E'.
      * apply N.eqb_eq in E'. apply findById_absent. congruence.
      * unfold findById. cbn [find]. rewrite E, N.eqb_sym, E'. reflexivity.
    + unfold findById in *. cbn [find].
      destruct (N.eqb (_id u) id') eqn:E'.
      * apply N.eqb_eq in E'. rewrite <- E', E. reflexivity.
      * now apply IH.
Qed.

(** X17: when no two users share an id and an admin deletes an existing user
    through DELETE /users/:id, that user is gone and everybody else's
    document is as before; from then on the guard answers 401 "Invalid token.
    User not found." to an access token of the deleted user that still
    verifies, and /auth/refresh answers 401 "Invalid refresh token" to a
    refresh token of that user that still verifies. *)
Theorem delete_user_revokes_access
    (generateAccessToken : Z -> ObjectId -> string -> string -> string)
    (verifyAccessToken verifyRefreshToken : Z -> string -> jwt_result)
    (castObjectId : string -> option ObjectId)
    (db : DB) (req_user : UserView) (id : string) (target : ObjectId)
    (user : User) :
  NoDup (map _id db) ->
  view_role req_user = "admin" ->
  castObjectId id = Some target ->
  findById db target = Some user ->
  let answer := delete_user castObjectId db req_user id in
  fst answer = mkReply 200 true (Some "User deleted successfully") None
  /\ findById (snd answer) target = None
  /\ (forall other, other <> target ->
        findById (snd answer) other = findById db other)
  /\ (forall now accessToken,
        verifyAccessToken now accessToken = Decoded target ->
        auth verifyAccessToken (snd answer) now
          (Some ("Bearer " ++ accessToken)%string) =
        Denied (failure 401 "Invalid token. User not found."))
  /\ (forall now refreshToken,
        refreshToken <> "" ->
        verifyRefreshToken now refreshToken = Decoded target ->
        refresh generateAccessToken verifyRefreshToken (snd answer) now
          (Some refreshToken) = (invalid_refresh_token, snd answer)).
Proof.
  intros Hnd Hrole Hcast Hu answer. unfold answer, delete_user, adminAuth.
  rewrite Hrole, Hcast, Hu. cbn [String.eqb Ascii.eqb Bool.eqb negb fst snd].
  assert (Hgone : findById (delete_by_id db target) target = None)
    by (rewrite (findById_delete db target target Hnd); now rewrite N.eqb_refl).
  split; [reflexivity|]. split; [exact Hgone|]. split; [|split].
  - intros other Ho. rewrite (findById_delete db target other Hnd).
    apply N.eqb_neq in Ho. now rewrite Ho.
  - intros now accessToken Hv. unfold auth.
    now rewrite bearer_of_header, Hv, Hgone.
  - intros now refreshToken Hne Hv. unfold refresh.
    apply String.eqb_neq in Hne. cbn [truthy text]. rewrite Hne. cbn [negb].
    now rewrite Hv, Hgone.
Qed.

Lemma delete_user_revokes_access_witness :
  NoDup (map _id Demo.users)
  /\ delete_user DemoAdmin.castObjectId Demo.users (select_profile Demo.bob)
       "id1" =
     (mkReply 200 true (Some "User deleted successfully") None, [Demo.bob])
  /\ auth Demo.verifyAccessToken Demo.users 0 (Some "Bearer at.1") =
     Granted (select_profile Demo.alice)
  /\ auth Demo.verifyAccessToken
       (snd (delete_user DemoAdmin.castObjectId Demo.users
               (select_profile Demo.bob) "id1")) 0 (Some "Bearer at.1") =
     Denied (failure 401 "Invalid token. User not found.").
Proof.
  assert (H : NoDup (map _id Demo.users)).
  { repeat constructor; cbn; intuition discriminate. }
  split; [exact H|]. split; [reflexivity|]. split; [reflexivity|].
  pose proof (delete_user_revokes_access Demo.generateAccessToken
                Demo.verifyAccessToken Demo.verifyRefreshToken
                DemoAdmin.castObjectId Demo.users (select_profile Demo.bob)
                "id1" 1%N Demo.alice H eq_refl eq_refl eq_refl) as Hd.
  cbv zeta in Hd. destruct Hd as [_ [_ [_ [Hguard _]]]].
  exact (Hguard 0%Z "at.1" eq_refl).
Defined.

(** ** The audit log *)

(** X18: [logActivity] only ever appends: it leaves the log as it is when
    the action is not one of the schema's enum, and otherwise adds one entry
    at the end, for the given user, action, outcome and time.  The action
    token_cleanup, which /auth/cleanup-tokens passes, is not in the enum, so
    that route never leaves an audit entry. *)
Theorem audit_log_append_only
    (log : list ActivityLogEntry) (now : Z) (userId : ObjectId)
    (action : string) (req : RequestMeta) (success : bool)
    (details : option string) :
  let log' := logActivity log now userId action req success details in
  (~ In action action_enum <-> log' = log)
  /\ (In action action_enum <->
      exists entry,
        log' = log ++ [entry]
        /\ log_userId entry = userId /\ log_action entry = action
        /\ log_success entry = success /\ log_details entry = details
        /\ log_timestamp entry = now)
  /\ logActivity log now userId "token_cleanup" req success details = log.
Proof.
  intros log'. unfold log', logActivity.
  assert (Hin : existsb (String.eqb action) action_enum = true <->
                In action action_enum).
  { rewrite existsb_exists. split.
    - intros [x [Hx E]]. apply String.eqb_eq in E. now subst.
    - intros H. exists action. split; [assumption|apply String.eqb_refl]. }
  assert (Hgrow : forall (e : ActivityLogEntry), log ++ [e] <> log).
  { intros e H. apply (f_equal (@List.length _)) in H.
    rewrite length_app in H. cbn in H. lia. }
  destruct (existsb (String.eqb action) action_enum) eqn:E.
  - apply proj1 in Hin. specialize (Hin eq_refl). split; [|split].
    + split; [contradiction|]. intros H. now apply Hgrow in H.
    + split; [|auto]. intros _. eexists. split; [reflexivity|]. repeat split.
    + reflexivity.
  - assert (Hout : ~ In action action_enum)
      by (intros H; apply Hin in H; discriminate).
    split; [|split].
    + split; auto.
    + split; [contradiction|]. intros [e [H _]]. symmetry in H.
      now apply Hgrow in H.
    + reflexivity.
Qed.

(** ** Registration and the sweep of a named user *)

(** X19: /auth/register answers 400 exactly when a required field is missing
    or empty, the password has fewer than six UTF-16 code units, or the email
    is already taken; and an answer of 400 is given before anything is
    written, so it leaves the collection as it was. *)
Theorem register_rejections
    (generateAccessToken : Z -> ObjectId -> string -> string -> string)
    (generateRefreshToken : Z -> ObjectId -> string)
    (validates : User -> bool) (hashPassword : string -> string)
    (db : DB) (now : Z) (body : RegisterBody) :
  let answer :=
    register generateAccessToken generateRefreshToken validates hashPassword
      db now body in
  (status (fst answer) = 400 <->
   truthy (reg_name body) = false \/ truthy (reg_email body) = false
   \/ truthy (reg_password body) = false
   \/ utf16_length (text (reg_password body)) < 6
   \/ findOne_email db (text (reg_email body)) <> None)
  /\ (status (fst answer) = 400 -> snd answer = db).
Proof.
  intros answer. unfold answer, register.
  destruct (truthy (reg_name body)) eqn:Hn; cbn [negb orb];
    [|split; [split; auto|reflexivity]].
  destruct (truthy (reg_email body)) eqn:He; cbn [negb orb];
    [|split; [split; auto|reflexivity]].
  destruct (truthy (reg_password body)) eqn:Hp; cbn [negb orb];
    [|split; [split; auto|reflexivity]].
  destruct (Nat.ltb_spec (utf16_length (text (reg_password body))) 6)
    as [Hshort|Hlong]; [split; [split; auto 6|reflexivity]|].
  destruct (findOne_email db (text (reg_email body))) as [u|] eqn:Hf.
  - split; [|reflexivity]. split; [|reflexivity].
    intros _. do 4 right. discriminate.
  - cbn [_id name email password role refreshTokens].
    destruct (validates _); cbn [negb fst snd status].
    + split; [|discriminate].
      split; [discriminate|].
      intros [H|[H|[H|[H|H]]]]; try discriminate; try lia. now contradiction H.
    + split; [|discriminate].
      split; [discriminate|].
      intros [H|[H|[H|[H|H]]]]; try discriminate; try lia. now contradiction H.
Qed.

Example register_counts_code_units :
  utf16_length "pässw" = 5
  /\ fst (register Demo.generateAccessToken Demo.generateRefreshToken
            Demo.validates Demo.hashPassword Demo.users 0
            (mkRegisterBody (Some "Carol") (Some "c@x.com")
               (Some "pässw") None)) =
     failure 400 "Password must be at least 6 characters long".
Proof. split; reflexivity. Qed.

(** X20: when an admin names a user in the body of /auth/cleanup-tokens, and
    does not ask for scope all, the route sweeps that user's list and no
    other; a userId that is no ObjectId, or that of no user, is answered with
    success and a count of zero, and nothing changes. *)
Theorem cleanup_tokens_named_user
    (verifyRefreshToken : Z -> string -> jwt_result)
    (castObjectId : string -> option ObjectId)
    (LocalTZA : Z -> bool -> Z)
    (db : DB) (now : Z) (req_user : UserView) (userId scope : option string) :
  view_role req_user = "admin" ->
  is_literal scope "all" = false ->
  truthy userId = true ->
  let answer :=
    cleanup_tokens verifyRefreshToken castObjectId LocalTZA db now req_user userId
      scope in
  reply_status (fst answer) = 200
  /\ match castObjectId (text userId) with
     | Some id =>
         answer =
         (mkReply 200 true (Some "Token cleanup completed")
            (Some (UserScope (text userId)
                     (fst (cleanupUserRefreshTokens verifyRefreshToken db now
                             id)))),
          snd (cleanupUserRefreshTokens verifyRefreshToken db now id))
         /\ (findById db id = None ->
             answer =
             (mkReply 200 true (Some "Token cleanup completed")
                (Some (UserScope (text userId) 0)), db))
     | None =>
         answer =
         (mkReply 200 true (Some "Token cleanup completed")
            (Some (UserScope (text userId) 0)), db)
     end.
Proof.
  intros Hrole Hscope Hid answer. unfold answer, cleanup_tokens.
  rewrite Hrole, Hscope, Hid.
  cbn [String.eqb Ascii.eqb Bool.eqb andb].
  unfold cleanupUserRefreshTokens_string.
  destruct (castObjectId (text userId)) as [id|].
  - destruct (cleanupUserRefreshTokens verifyRefreshToken db now id)
      as [n db1] eqn:Hc.
    cbn [fst snd reply_status]. split; [reflexivity|]. split; [reflexivity|].
    intros Hmissing. unfold cleanupUserRefreshTokens in Hc.
    rewrite Hmissing in Hc. now injection Hc as <- <-.
  - cbn [fst snd reply_status]. split; reflexivity.
Qed.

Lemma cleanup_tokens_named_user_witness :
  view_role (select_profile Demo.bob) = "admin"
  /\ cleanup_tokens Demo.verifyRefreshToken DemoAdmin.castObjectId Demo.utc Demo.users 0
       (select_profile Demo.bob) (Some "id1") None =
     (mkReply 200 true (Some "Token cleanup completed")
        (Some (UserScope "id1" 1)),
      [set_refreshTokens Demo.alice [mkRefreshTokenRecord "rt.1" 5000];
       Demo.bob])
  /\ cleanup_tokens Demo.verifyRefreshToken DemoAdmin.castObjectId Demo.utc Demo.users 0
       (select_profile Demo.bob) (Some "nobody") None =
     (mkReply 200 true (Some "Token cleanup completed")
        (Some (UserScope "nobody" 0)), Demo.users).
Proof.
  split; [reflexivity|]. split.
  - pose proof (cleanup_tokens_named_user Demo.verifyRefreshToken
                  DemoAdmin.castObjectId Demo.utc Demo.users 0 (select_profile Demo.bob)
                  (Some "id1") None eq_refl eq_refl eq_refl) as H.
    cbv zeta in H. destruct H as [_ H]. cbn in H. destruct H as [H _].
    exact H.
  - pose proof (cleanup_tokens_named_user Demo.verifyRefreshToken
                  DemoAdmin.castObjectId Demo.utc Demo.users 0 (select_profile Demo.bob)
                  (Some "nobody") None eq_refl eq_refl eq_refl) as H.
    cbv zeta in H. destruct H as [_ H]. exact H.
Defined.

(** ** A count of zero means nothing changed *)

Lemma map_fixed (A : Type) (f : A -> A) (l : list A) :
  map f l = l -> forall x, In x l -> f x = x.
Proof.
  induction l as [|y l IH]; cbn [map]; intros H x Hx; [contradiction|].
  injection H as Hy Hl. destruct Hx as [<-|Hx]; auto.
Qed.

Lemma filter_fixed (A : Type) (f : A -> bool) (l : list A) :
  filter f l = l -> forall x, In x l -> f x = true.
Proof.
  intros H x Hx. rewrite <- H in Hx. apply filter_In in Hx. tauto.
Qed.

(** X21: the age-based sweep returns zero exactly when it has left the
    collection as it was. *)
Theorem age_sweep_zero_iff_unchanged
    (LocalTZA : Z -> bool -> Z)
    (db : DB) (now : Z) (olderThanDays : option Z) :
  fst (cleanupOldTokens LocalTZA db now olderThanDays) = 0 <->
  snd (cleanupOldTokens LocalTZA db now olderThanDays) = db.
Proof.
  destruct (cutoffDate LocalTZA now
              match olderThanDays with Some d => d | None => 30%Z end)
    as [c|] eqn:Hc.
  2: { rewrite (cleanupOldTokens_invalid LocalTZA db now olderThanDays Hc).
       split; reflexivity. }
  rewrite (cleanupOldTokens_at LocalTZA db now olderThanDays c Hc).
  cbn [fst snd].
  split.
  - intros H. apply List.length_zero_iff_nil in H.
    rewrite <- (map_id db) at 2. apply map_ext_in. intros u Hu.
    destruct (existsb (older_than c) (refreshTokens u)) eqn:E; [|reflexivity].
    assert (Hin : In u (filter (fun u => existsb (older_than c) (refreshTokens u)) db))
      by (apply filter_In; auto).
    rewrite H in Hin. contradiction.
  - intros H. rewrite filter_none; [reflexivity|]. intros u Hu.
    pose proof (map_fixed _ _ _ H u Hu) as Hfix. cbv beta in Hfix.
    destruct (existsb (older_than c) (refreshTokens u)) eqn:E; [|reflexivity].
    exfalso. apply existsb_exists in E. destruct E as [r [Hr Hold]].
    assert (Hl : filter (fun r => negb (older_than c r)) (refreshTokens u) =
                 refreshTokens u)
      by (rewrite <- Hfix at 2; reflexivity).
    pose proof (filter_fixed _ _ _ Hl r Hr) as Hk. cbv beta in Hk.
    rewrite Hold in Hk. discriminate.
Qed.

(** X22: the per-user sweep returns zero exactly when it has left the
    collection as it was. *)
Theorem per_user_sweep_zero_iff_unchanged
    (verifyRefreshToken : Z -> string -> jwt_result)
    (db : DB) (now : Z) (userId : ObjectId) :
  fst (cleanupUserRefreshTokens verifyRefreshToken db now userId) = 0 <->
  snd (cleanupUserRefreshTokens verifyRefreshToken db now userId) = db.
Proof.
  destruct (cleanup_run verifyRefreshToken db now userId) as [Hn Hl].
  split.
  - intros H. unfold cleanupUserRefreshTokens in *.
    destruct (findById db userId) as [u|]; [|reflexivity].
    destruct (sweep verifyRefreshToken now (refreshTokens u)) as [valid n].
    destruct (Nat.ltb_spec 0 n); cbn [fst snd] in *; [lia|reflexivity].
  - intros H. rewrite Hn. rewrite H in Hl.
    apply dropped_none. apply filter_fixed. now symmetry.
Qed.
